(** * ROI calculator: the calculation of [ROICalculator.tsx]

    The component keeps two pieces of state, [inputs] (ten numbers typed
    into the form) and [results] (four numbers shown to the user).
    [handleInputChange] parses the text of a form field and stores it in
    [inputs]; [calculateROI] recomputes [results] from [inputs].  A field
    of [inputs] holds whatever number the handler stored: it can be
    negative, but never [NaN].  The handler stores [Infinity] for the text
    [Infinity]; the fields of the form are number inputs, which hand it
    the text of a finite number or the empty text, so the records the
    form produces hold finite numbers.

    Numbers.  The code is embedded twice.

    For the theorems about every input record a JavaScript number is an
    extended rational: a finite value (an exact rational in canonical
    form), [Infinity], [-Infinity] or [NaN], with the IEEE 754 rules for
    the special values (what [x / 0], [Infinity - Infinity],
    [0 * Infinity], comparisons with [NaN], [Math.max] of a [NaN] ...
    give).  Two things of binary64 are left out there: finite results are
    exact (no rounding to 53 bits, no overflow to [Infinity]), and there
    is only one zero (the handler never stores [-0], which is falsy and
    replaced by [0]).

    For what the code returns on one given record, where rounding and
    overflow decide, [Binary64] embeds [calculateROI] over the binary64
    numbers themselves, with the arithmetic of the platform. *)

From Stdlib Require Import ZArith QArith Qcanon Qround Bool String Ascii List Lia Lqa.
From Stdlib Require Import Qfield DecimalString DecimalPos DecimalZ.
From Stdlib Require PrimFloat SpecFloat FloatOps Uint63.

Declare Scope js_scope.
Delimit Scope js_scope with js.

(* ------------------------------------------------------------------ *)
(** ** Numbers *)

Inductive number : Type :=
| NaN
| Infinity
| NegInfinity
| Fin (q : Qc).

Definition of_Z (z : Z) : number := Fin (Q2Qc (inject_Z z)).

Definition to_Z (x : number) : option Z :=
  match x with
  | Fin q => if Qeq_bool (inject_Z (Qfloor q)) q then Some (Qfloor q) else None
  | _ => None
  end.

Number Notation number of_Z to_Z : js_scope.

Definition neg (x : number) : number :=
  match x with
  | NaN => NaN
  | Infinity => NegInfinity
  | NegInfinity => Infinity
  | Fin q => Fin (- q)
  end.

(** [x + y] *)
Definition add (x y : number) : number :=
  match x, y with
  | NaN, _ | _, NaN => NaN
  | Infinity, NegInfinity | NegInfinity, Infinity => NaN
  | Infinity, _ | _, Infinity => Infinity
  | NegInfinity, _ | _, NegInfinity => NegInfinity
  | Fin a, Fin b => Fin (a + b)
  end.

(** [x - y] *)
Definition sub (x y : number) : number := add x (neg y).

(** An infinity multiplied or divided by a finite value whose comparison
    with zero is [s]. *)
Definition scale_inf (s : comparison) (inf : number) : number :=
  match s with
  | Gt => inf
  | Lt => neg inf
  | Eq => NaN
  end.

(** [x * y] *)
Definition mul (x y : number) : number :=
  match x, y with
  | NaN, _ | _, NaN => NaN
  | Fin a, Fin b => Fin (a * b)
  | Fin a, inf => scale_inf (a ?= 0)%Qc inf
  | inf, Fin b => scale_inf (b ?= 0)%Qc inf
  | Infinity, Infinity | NegInfinity, NegInfinity => Infinity
  | _, _ => NegInfinity
  end.

(** [x / y].  A finite value divided by zero is an infinity of its sign,
    [0 / 0] is [NaN]; a finite value divided by an infinity is zero. *)
Definition div (x y : number) : number :=
  match x, y with
  | NaN, _ | _, NaN => NaN
  | Fin a, Fin b =>
      match (b ?= 0)%Qc with
      | Eq => scale_inf (a ?= 0)%Qc Infinity
      | _ => Fin (a / b)
      end
  | Fin _, _ => Fin 0
  | inf, Fin b =>
      match (b ?= 0)%Qc with
      | Lt => neg inf
      | _ => inf
      end
  | _, _ => NaN
  end.

(** The comparison behind [<], [<=], [>], [>=]: undefined as soon as one
    operand is [NaN]. *)
Definition compare (x y : number) : option comparison :=
  match x, y with
  | NaN, _ | _, NaN => None
  | Fin a, Fin b => Some (a ?= b)%Qc
  | Infinity, Infinity | NegInfinity, NegInfinity => Some Eq
  | Infinity, _ | _, NegInfinity => Some Gt
  | _, _ => Some Lt
  end.

Definition ltb (x y : number) : bool :=
  match compare x y with Some Lt => true | _ => false end.
Definition leb (x y : number) : bool :=
  match compare x y with Some Lt | Some Eq => true | _ => false end.
Definition gtb (x y : number) : bool := ltb y x.
Definition geb (x y : number) : bool := leb y x.

Infix "+" := add : js_scope.
Infix "-" := sub : js_scope.
Infix "*" := mul : js_scope.
Infix "/" := div : js_scope.
Notation "- x" := (neg x) : js_scope.
Notation "x < y" := (ltb x y = true) : js_scope.
Notation "x <= y" := (leb x y = true) : js_scope.
Notation "x > y" := (gtb x y = true) : js_scope.
Notation "x >= y" := (geb x y = true) : js_scope.

Definition isNaN (x : number) : bool :=
  match x with NaN => true | _ => false end.

Definition isFinite (x : number) : bool :=
  match x with Fin _ => true | _ => false end.

(** [Number.isInteger] *)
Definition isInteger (x : number) : bool :=
  match to_Z x with Some _ => true | None => false end.

(** Truthiness of a number: [0] and [NaN] are falsy. *)
Definition truthy (x : number) : bool :=
  match x with
  | NaN => false
  | Fin q => negb (Qeq_bool q 0)
  | _ => true
  end.

(** [x || y] on numbers. *)
Definition or_else (x y : number) : number := if truthy x then x else y.

Module Math.

(** [Math.min(x, y)]: [NaN] if either argument is. *)
Definition min (x y : number) : number :=
  match compare x y with
  | None => NaN
  | Some Gt => y
  | Some _ => x
  end.

(** [Math.max(x, y)]: [NaN] if either argument is. *)
Definition max (x y : number) : number :=
  match compare x y with
  | None => NaN
  | Some Lt => y
  | Some _ => x
  end.

(** [Math.round(x)]: the integer nearest to [x], ties towards
    [+Infinity], that is [floor(x + 1/2)]. *)
Definition round (x : number) : number :=
  match x with
  | Fin q => of_Z (Qfloor (q + (1 # 2)))
  | _ => x
  end.

End Math.

(* ------------------------------------------------------------------ *)
(** ** [parseFloat]

    The built-in of the platform, after ECMAScript: leading white space is
    skipped, the longest prefix that is a decimal literal (optional sign,
    then [Infinity] or digits with an optional fraction and exponent) is
    read, and [NaN] is returned when there is none.  A string is a sequence
    of code units below 256; the finite value is the exact decimal. *)

Definition isWhiteSpace (c : ascii) : bool :=
  let n := N_of_ascii c in
  ((9 <=? n) && (n <=? 13) || (n =? 32) || (n =? 160))%N.

Fixpoint trimStart (s : string) : string :=
  match s with
  | String c r => if isWhiteSpace c then trimStart r else s
  | EmptyString => s
  end.

Definition digit (c : ascii) : option Z :=
  let n := Z.of_N (N_of_ascii c) in
  if ((48 <=? n) && (n <=? 57))%Z then Some (n - 48)%Z else None.

(** The longest run of decimal digits at the head of [s], accumulated on
    [acc]: the value, the number of digits read and the rest. *)
Fixpoint digits (s : string) (acc : Z) (count : nat) : Z * nat * string :=
  match s with
  | String c r =>
      match digit c with
      | Some d => digits r (10 * acc + d)%Z (S count)
      | None => (acc, count, s)
      end
  | EmptyString => (acc, count, s)
  end.

(** The value of an exponent part at the head of [s]; [0] when [s] does
    not start with a complete one. *)
Definition exponent (s : string) : Z :=
  match s with
  | String c r =>
      if (Ascii.eqb c "e" || Ascii.eqb c "E")%bool then
        let (sgn, r') :=
          match r with
          | String c' t =>
              if Ascii.eqb c' "+" then (1%Z, t)
              else if Ascii.eqb c' "-" then ((-1)%Z, t)
              else (1%Z, r)
          | EmptyString => (1%Z, r)
          end in
        let '(e, n, _) := digits r' 0%Z O in
        match n with
        | O => 0%Z
        | S _ => (sgn * e)%Z
        end
      else 0%Z
  | EmptyString => 0%Z
  end.

(** [m * 10^e] *)
Definition decimal (m e : Z) : Qc :=
  if (0 <=? e)%Z then Q2Qc (inject_Z (m * 10 ^ e))
  else Q2Qc (m # Z.to_pos (10 ^ (- e))).

(** An optional sign: whether it is a minus, and what follows it. *)
Definition split_sign (s : string) : bool * string :=
  match s with
  | String c r =>
      if Ascii.eqb c "-" then (true, r)
      else if Ascii.eqb c "+" then (false, r)
      else (false, s)
  | EmptyString => (false, s)
  end.

(** The number read from the text after the sign: [Infinity], or integer
    digits, an optional point with fraction digits, and an optional
    exponent, with at least one digit before the exponent. *)
Definition unsigned_literal (negative : bool) (body : string) : number :=
  if prefix "Infinity" body then (if negative then NegInfinity else Infinity)
  else
    let '(ip, ni, r1) := digits body 0%Z O in
    let '(m, nf, r2) :=
      match r1 with
      | String c r => if Ascii.eqb c "." then digits r ip O else (ip, O, r1)
      | EmptyString => (ip, O, r1)
      end in
    match (ni + nf)%nat with
    | O => NaN
    | S _ =>
        let v := decimal m (exponent r2 - Z.of_nat nf) in
        Fin (if negative then (- v)%Qc else v)
    end.

Definition parseFloat (inputString : string) : number :=
  let trimmed := trimStart inputString in
  let (negative, body) := split_sign trimmed in
  unsigned_literal negative body.

(** Texts that start, after white space and an optional sign, with a
    number: [Infinity], a digit, or a point followed by a digit. *)
Definition starts_with_digit (s : string) : bool :=
  match s with
  | String c _ => match digit c with Some _ => true | None => false end
  | EmptyString => false
  end.

Definition numeric (value : string) : bool :=
  let body := snd (split_sign (trimStart value)) in
  (prefix "Infinity" body
   || starts_with_digit body
   || match body with
      | String c r => Ascii.eqb c "." && starts_with_digit r
      | EmptyString => false
      end)%bool.

(* ------------------------------------------------------------------ *)
(** ** The component state *)

Record CalculatorInputs : Type := {
  current_maintenance_cost : number;
  projected_maintenance_cost : number;
  current_downtime_hours : number;
  downtime_cost_per_hour : number;
  downtime_reduction_percent : number;
  current_deployments_per_year : number;
  deployment_increase_percent : number;
  modernization_cost : number;
  productivity_gain_percent : number;
  team_salary_cost : number
}.

Record ROIResults : Type := {
  roi_percentage : number;
  payback_months : number;
  net_benefit_3_years : number;
  annual_savings : number
}.

(** [keyof CalculatorInputs] *)
Inductive key : Type :=
| k_current_maintenance_cost
| k_projected_maintenance_cost
| k_current_downtime_hours
| k_downtime_cost_per_hour
| k_downtime_reduction_percent
| k_current_deployments_per_year
| k_deployment_increase_percent
| k_modernization_cost
| k_productivity_gain_percent
| k_team_salary_cost.

(** [prev[field]] *)
Definition get (prev : CalculatorInputs) (field : key) : number :=
  match field with
  | k_current_maintenance_cost => prev.(current_maintenance_cost)
  | k_projected_maintenance_cost => prev.(projected_maintenance_cost)
  | k_current_downtime_hours => prev.(current_downtime_hours)
  | k_downtime_cost_per_hour => prev.(downtime_cost_per_hour)
  | k_downtime_reduction_percent => prev.(downtime_reduction_percent)
  | k_current_deployments_per_year => prev.(current_deployments_per_year)
  | k_deployment_increase_percent => prev.(deployment_increase_percent)
  | k_modernization_cost => prev.(modernization_cost)
  | k_productivity_gain_percent => prev.(productivity_gain_percent)
  | k_team_salary_cost => prev.(team_salary_cost)
  end.

Definition key_eqb (a b : key) : bool :=
  match a, b with
  | k_current_maintenance_cost, k_current_maintenance_cost
  | k_projected_maintenance_cost, k_projected_maintenance_cost
  | k_current_downtime_hours, k_current_downtime_hours
  | k_downtime_cost_per_hour, k_downtime_cost_per_hour
  | k_downtime_reduction_percent, k_downtime_reduction_percent
  | k_current_deployments_per_year, k_current_deployments_per_year
  | k_deployment_increase_percent, k_deployment_increase_percent
  | k_modernization_cost, k_modernization_cost
  | k_productivity_gain_percent, k_productivity_gain_percent
  | k_team_salary_cost, k_team_salary_cost => true
  | _, _ => false
  end.

(** [{ ...prev, [field]: v }] *)
Definition spread (prev : CalculatorInputs) (field : key) (v : number)
  : CalculatorInputs :=
  let at_ k := if key_eqb field k then v else get prev k in
  {| current_maintenance_cost := at_ k_current_maintenance_cost;
     projected_maintenance_cost := at_ k_projected_maintenance_cost;
     current_downtime_hours := at_ k_current_downtime_hours;
     downtime_cost_per_hour := at_ k_downtime_cost_per_hour;
     downtime_reduction_percent := at_ k_downtime_reduction_percent;
     current_deployments_per_year := at_ k_current_deployments_per_year;
     deployment_increase_percent := at_ k_deployment_increase_percent;
     modernization_cost := at_ k_modernization_cost;
     productivity_gain_percent := at_ k_productivity_gain_percent;
     team_salary_cost := at_ k_team_salary_cost |}.

(** The two [useState] cells of the component. *)
Record Component : Type := {
  inputs : CalculatorInputs;
  results : ROIResults
}.

Definition setInputs (f : CalculatorInputs -> CalculatorInputs)
  (st : Component) : Component :=
  {| inputs := f st.(inputs); results := st.(results) |}.

Definition setResults (r : ROIResults) (st : Component) : Component :=
  {| inputs := st.(inputs); results := r |}.

Open Scope js_scope.

Definition default_inputs : CalculatorInputs :=
  {| current_maintenance_cost := 250000;
     projected_maintenance_cost := 150000;
     current_downtime_hours := 20;
     downtime_cost_per_hour := 5000;
     downtime_reduction_percent := 60;
     current_deployments_per_year := 12;
     deployment_increase_percent := 200;
     modernization_cost := 500000;
     productivity_gain_percent := 25;
     team_salary_cost := 800000 |}.

Definition initial_results : ROIResults :=
  {| roi_percentage := 0;
     payback_months := 0;
     net_benefit_3_years := 0;
     annual_savings := 0 |}.

Definition initial : Component :=
  {| inputs := default_inputs; results := initial_results |}.

(* ------------------------------------------------------------------ *)
(** ** [calculateROI] *)

(** The constants of the body of [calculateROI], each a function of the
    [inputs] the closure reads. *)
Module Calc.
Section Body.

Variable inputs : CalculatorInputs.

(* Calculate annual maintenance savings *)
Definition maintenance_savings : number :=
  inputs.(current_maintenance_cost) - inputs.(projected_maintenance_cost).

(* Calculate downtime savings *)
Definition current_annual_downtime_cost : number :=
  inputs.(current_downtime_hours) * 12 * inputs.(downtime_cost_per_hour).
Definition downtime_savings : number :=
  current_annual_downtime_cost * (inputs.(downtime_reduction_percent) / 100).

(* Calculate productivity gains *)
Definition productivity_value : number :=
  inputs.(team_salary_cost) * (inputs.(productivity_gain_percent) / 100).

(* Calculate deployment efficiency gains (conservative estimate) *)
Definition deployment_efficiency_gain : number :=
  Math.min 50000
    (inputs.(current_deployments_per_year) * 1000
     * (inputs.(deployment_increase_percent) / 100)).

(* Total annual benefits *)
Definition total_annual_savings : number :=
  maintenance_savings + downtime_savings + productivity_value
  + deployment_efficiency_gain.

(* Calculate 3-year net benefit *)
Definition three_year_benefits : number := total_annual_savings * 3.
Definition net_benefit : number :=
  three_year_benefits - inputs.(modernization_cost).

(* Calculate ROI percentage *)
Definition roi : number :=
  (net_benefit / inputs.(modernization_cost)) * 100.

(* Calculate payback period *)
Definition payback_months : number :=
  Math.max 1
    (Math.round ((inputs.(modernization_cost) / total_annual_savings) * 12)).

End Body.
End Calc.

Definition calculateROI (st : Component) : Component :=
  let inputs := st.(inputs) in
  setResults
    {| roi_percentage := Math.max 50 (Math.round (Calc.roi inputs));
       payback_months := Math.min 18 (Calc.payback_months inputs);
       net_benefit_3_years := Calc.net_benefit inputs;
       annual_savings := Calc.total_annual_savings inputs |}
    st.

(** The calculation as a function from inputs to results (the [computeROI]
    of the specification): what [calculateROI] stores when the component
    holds [i]. *)
Definition computeROI (i : CalculatorInputs) : ROIResults :=
  (calculateROI {| inputs := i; results := initial_results |}).(results).

(** [handleInputChange(field, value)] *)
Definition handleInputChange (field : key) (value : string)
  (st : Component) : Component :=
  let numValue := or_else (parseFloat value) 0 in
  setInputs (fun prev => spread prev field numValue) st.

(** [onChange] of a form field: the handler runs, then the effect that
    depends on [inputs] recomputes the results. *)
Definition onChange (field : key) (value : string) (st : Component)
  : Component :=
  calculateROI (handleInputChange field value st).


(** A valid positive field: a finite number above zero. *)
Definition valid_positive (x : number) : Prop :=
  isFinite x = true /\ x > 0.

(** Two input records that differ at most in the field [k]. *)
Definition differ_only_in (k : key) (i1 i2 : CalculatorInputs) : Prop :=
  forall k', k' <> k -> get i1 k' = get i2 k'.

(** The right-hand sides of the specification's formulas for the two
    pass-through outputs, each written as one expression. *)
Definition spec_annual_savings (i : CalculatorInputs) : number :=
  (i.(current_maintenance_cost) - i.(projected_maintenance_cost))
  + (i.(current_downtime_hours) * 12 * i.(downtime_cost_per_hour))
    * (i.(downtime_reduction_percent) / 100)
  + i.(team_salary_cost) * (i.(productivity_gain_percent) / 100)
  + Math.min 50000
      (i.(current_deployments_per_year) * 1000
       * (i.(deployment_increase_percent) / 100)).

Definition spec_net_benefit_3_years (i : CalculatorInputs) : number :=
  spec_annual_savings i * 3 - i.(modernization_cost).

(** Input records used in the examples below: the default inputs with one
    or two fields replaced. *)
Definition infinite_cost_inputs : CalculatorInputs :=
  spread default_inputs k_modernization_cost Infinity.

Definition infinite_cost_and_projection_inputs : CalculatorInputs :=
  spread infinite_cost_inputs k_projected_maintenance_cost Infinity.

Definition infinite_projection_inputs : CalculatorInputs :=
  spread default_inputs k_projected_maintenance_cost Infinity.

Definition infinite_maintenance_inputs : CalculatorInputs :=
  spread infinite_projection_inputs k_current_maintenance_cost Infinity.

Definition annual_loss_inputs : CalculatorInputs :=
  spread default_inputs k_current_maintenance_cost (- 2000000).

Definition zero_cost_inputs : CalculatorInputs :=
  spread default_inputs k_modernization_cost 0.

Definition zero_cost_zero_savings_inputs : CalculatorInputs :=
  spread zero_cost_inputs k_current_maintenance_cost (- 794000).

(** The component after [-5] is typed into the current maintenance
    field. *)
Definition negative_maintenance : Component :=
  handleInputChange k_current_maintenance_cost "-5" initial.

(* ------------------------------------------------------------------ *)
(** ** The component over time *)

(** The constant [numValue] of the handler: the number stored for a
    text. *)
Definition numValue (value : string) : number := or_else (parseFloat value) 0.

(** An [onChange] event of the form: the field and the text of its
    input element. *)
Definition event : Type := (key * string)%type.

(** The component after the first render: the effect has run once. *)
Definition mount : Component := calculateROI initial.

(** The component after a sequence of [onChange] events, oldest first. *)
Fixpoint events (evs : list event) (st : Component) : Component :=
  match evs with
  | nil => st
  | (field, value) :: rest => events rest (onChange field value st)
  end.

(** The number stored for the last text typed into the field [k], or [d]
    when none of the events is for [k]. *)
Fixpoint last_value (k : key) (evs : list event) (d : number) : number :=
  match evs with
  | nil => d
  | (field, value) :: rest =>
      last_value k rest (if key_eqb field k then numValue value else d)
  end.

(** Texts made of white space only. *)
Fixpoint all_white (s : string) : bool :=
  match s with
  | String c r => isWhiteSpace c && all_white r
  | EmptyString => true
  end.

(** Texts that start with neither white space nor a sign. *)
Definition unsigned (s : string) : bool :=
  match s with
  | String c _ =>
      negb (isWhiteSpace c) && negb (Ascii.eqb c "-") && negb (Ascii.eqb c "+")
  | EmptyString => true
  end.

(** Texts that cannot continue a run of digits into a longer number: they
    start with none of a digit, a point and an exponent mark. *)
Definition ends_number (s : string) : bool :=
  match s with
  | String c _ =>
      negb (starts_with_digit s) && negb (Ascii.eqb c ".")
      && negb (Ascii.eqb c "e") && negb (Ascii.eqb c "E")
  | EmptyString => true
  end.

(** The decimal numeral of an integer. *)
Definition numeral (z : Z) : string := NilZero.string_of_int (Z.to_int z).

(** The value of the digits [d] read after digits of value [acc]. *)
Fixpoint uint_acc (d : Decimal.uint) (acc : Z) : Z :=
  match d with
  | Decimal.Nil => acc
  | Decimal.D0 l => uint_acc l (10 * acc + 0)
  | Decimal.D1 l => uint_acc l (10 * acc + 1)
  | Decimal.D2 l => uint_acc l (10 * acc + 2)
  | Decimal.D3 l => uint_acc l (10 * acc + 3)
  | Decimal.D4 l => uint_acc l (10 * acc + 4)
  | Decimal.D5 l => uint_acc l (10 * acc + 5)
  | Decimal.D6 l => uint_acc l (10 * acc + 6)
  | Decimal.D7 l => uint_acc l (10 * acc + 7)
  | Decimal.D8 l => uint_acc l (10 * acc + 8)
  | Decimal.D9 l => uint_acc l (10 * acc + 9)
  end%Z.

(* ------------------------------------------------------------------ *)
(** ** [calculateROI] over binary64 *)

Module Binary64.

Import PrimFloat SpecFloat FloatOps.
#[local] Open Scope float_scope.

Module Math.

(** [Math.min(x, y)]: [NaN] if either argument is, and [-0] below
    [+0]. *)
Definition min (x y : float) : float :=
  if is_nan x || is_nan y then nan
  else if x <? y then x
  else if y <? x then y
  else if get_sign x then x else y.

(** [Math.max(x, y)]: [NaN] if either argument is, and [+0] above
    [-0]. *)
Definition max (x y : float) : float :=
  if is_nan x || is_nan y then nan
  else if x <? y then y
  else if y <? x then x
  else if get_sign x then y else x.

(** The binary64 number of an integer of at most [2 ^ 53] in absolute
    value. *)
Definition of_Z (z : Z) : float :=
  match z with
  | Z0 => zero
  | Zpos _ => of_uint63 (Uint63.of_Z z)
  | Zneg _ => - of_uint63 (Uint63.of_Z (- z))
  end.

(** [Math.round(x)]: [x] itself when it is [NaN], infinite, a zero or an
    integer; otherwise [x] is [m * 2 ^ e] with [e < 0] and the result is
    the integer [floor(x + 1/2)], computed exactly, with the sign of [x]
    when it is zero. *)
Definition round (x : float) : float :=
  match Prim2SF x with
  | S754_finite s m e =>
      if (0 <=? e)%Z then x
      else
        let n := ((2 * (if s then Z.neg m else Z.pos m) + 2 ^ (- e))
                  / 2 ^ (1 - e))%Z in
        if (n =? 0)%Z then (if s then neg_zero else zero) else of_Z n
  | _ => x
  end.

End Math.

Record CalculatorInputs : Type := {
  current_maintenance_cost : float;
  projected_maintenance_cost : float;
  current_downtime_hours : float;
  downtime_cost_per_hour : float;
  downtime_reduction_percent : float;
  current_deployments_per_year : float;
  deployment_increase_percent : float;
  modernization_cost : float;
  productivity_gain_percent : float;
  team_salary_cost : float
}.

Record ROIResults : Type := {
  roi_percentage : float;
  payback_months : float;
  net_benefit_3_years : float;
  annual_savings : float
}.

(** The record [calculateROI] passes to [setResults] when the component
    holds [inputs]. *)
Definition calculateROI (inputs : CalculatorInputs) : ROIResults :=
  (* Calculate annual maintenance savings *)
  let maintenance_savings :=
    inputs.(current_maintenance_cost) - inputs.(projected_maintenance_cost) in
  (* Calculate downtime savings *)
  let current_annual_downtime_cost :=
    inputs.(current_downtime_hours) * 12 * inputs.(downtime_cost_per_hour) in
  let downtime_savings :=
    current_annual_downtime_cost
    * (inputs.(downtime_reduction_percent) / 100) in
  (* Calculate productivity gains *)
  let productivity_value :=
    inputs.(team_salary_cost) * (inputs.(productivity_gain_percent) / 100) in
  (* Calculate deployment efficiency gains (conservative estimate) *)
  let deployment_efficiency_gain :=
    Math.min 50000
      (inputs.(current_deployments_per_year) * 1000
       * (inputs.(deployment_increase_percent) / 100)) in
  (* Total annual benefits *)
  let total_annual_savings :=
    maintenance_savings + downtime_savings + productivity_value
    + deployment_efficiency_gain in
  (* Calculate 3-year net benefit *)
  let three_year_benefits := total_annual_savings * 3 in
  let net_benefit := three_year_benefits - inputs.(modernization_cost) in
  (* Calculate ROI percentage *)
  let roi := (net_benefit / inputs.(modernization_cost)) * 100 in
  (* Calculate payback period *)
  let payback_months :=
    Math.max 1
      (Math.round
         ((inputs.(modernization_cost) / total_annual_savings) * 12)) in
  {| roi_percentage := Math.max 50 (Math.round roi);
     payback_months := Math.min 18 payback_months;
     net_benefit_3_years := net_benefit;
     annual_savings := total_annual_savings |}.

Definition default_inputs : CalculatorInputs :=
  {| current_maintenance_cost := 250000;
     projected_maintenance_cost := 150000;
     current_downtime_hours := 20;
     downtime_cost_per_hour := 5000;
     downtime_reduction_percent := 60;
     current_deployments_per_year := 12;
     deployment_increase_percent := 200;
     modernization_cost := 500000;
     productivity_gain_percent := 25;
     team_salary_cost := 800000 |}.

(** The ten fields of a record are finite numbers. *)
Definition all_finite (i : CalculatorInputs) : bool :=
  is_finite i.(current_maintenance_cost)
  && is_finite i.(projected_maintenance_cost)
  && is_finite i.(current_downtime_hours)
  && is_finite i.(downtime_cost_per_hour)
  && is_finite i.(downtime_reduction_percent)
  && is_finite i.(current_deployments_per_year)
  && is_finite i.(deployment_increase_percent)
  && is_finite i.(modernization_cost)
  && is_finite i.(productivity_gain_percent)
  && is_finite i.(team_salary_cost).

(** The default inputs after [1e308] is typed into the projected
    maintenance cost and into the downtime hours, and [c] is the current
    maintenance cost: the downtime savings overflow to [Infinity]. *)
#[warnings="-inexact-float"]
Definition overflowing_inputs (c : float) : CalculatorInputs :=
  {| current_maintenance_cost := c;
     projected_maintenance_cost := 1e308;
     current_downtime_hours := 1e308;
     downtime_cost_per_hour := 5000;
     downtime_reduction_percent := 60;
     current_deployments_per_year := 12;
     deployment_increase_percent := 200;
     modernization_cost := 500000;
     productivity_gain_percent := 25;
     team_salary_cost := 800000 |}.

(** The record above with [-1e308] as the current maintenance cost: the
    maintenance savings overflow to [-Infinity]. *)
#[warnings="-inexact-float"]
Definition overflow_inputs : CalculatorInputs := overflowing_inputs (-1e308).

End Binary64.

(* ------------------------------------------------------------------ *)
(** * Properties of the numbers *)

Lemma Fin_eq (a b : Qc) : (a == b)%Q -> Fin a = Fin b.
Proof. intro H. f_equal. now apply Qc_is_canon. Qed.

Lemma this_of_Z (z : Z) : this (Q2Qc (inject_Z z)) = inject_Z z.
Proof.
  unfold Q2Qc; cbn [this]. apply Qred_identity. cbn. apply Z.gcd_1_r.
Qed.

Lemma compare_of_Z (a b : Z) : compare (of_Z a) (of_Z b) = Some (a ?= b)%Z.
Proof.
  unfold of_Z, compare, Qccompare. rewrite !this_of_Z.
  unfold Qcompare; cbn. now rewrite !Z.mul_1_r.
Qed.

Lemma max_of_Z (a b : Z) : Math.max (of_Z a) (of_Z b) = of_Z (Z.max a b).
Proof.
  unfold Math.max. rewrite compare_of_Z. unfold Z.max.
  destruct (a ?= b)%Z; reflexivity.
Qed.

Lemma min_of_Z (a b : Z) : Math.min (of_Z a) (of_Z b) = of_Z (Z.min a b).
Proof.
  unfold Math.min. rewrite compare_of_Z. unfold Z.min.
  destruct (a ?= b)%Z; reflexivity.
Qed.

Lemma leb_of_Z (a b : Z) : leb (of_Z a) (of_Z b) = (a <=? b)%Z.
Proof.
  unfold leb. rewrite compare_of_Z. unfold Z.leb.
  destruct (a ?= b)%Z; reflexivity.
Qed.

Lemma isInteger_of_Z (z : Z) : isInteger (of_Z z) = true.
Proof.
  unfold isInteger, of_Z, to_Z. rewrite this_of_Z, Qfloor_Z.
  now rewrite Qeq_bool_refl.
Qed.

Lemma round_Fin (q : Qc) : Math.round (Fin q) = of_Z (Qfloor (q + (1 # 2))).
Proof. reflexivity. Qed.

Lemma Qccompare_lt (a b : Qc) : (a ?= b)%Qc = Lt <-> (a < b)%Qc.
Proof. symmetry. apply Qclt_alt. Qed.

Lemma Qccompare_gt (a b : Qc) : (a ?= b)%Qc = Gt <-> (b < a)%Qc.
Proof. symmetry. apply (Qcgt_alt a b). Qed.

Lemma Qccompare_eq (a b : Qc) : (a ?= b)%Qc = Eq <-> a = b.
Proof. symmetry. apply Qceq_alt. Qed.

Lemma ltb_Fin (a b : Qc) : Fin a < Fin b <-> (a < b)%Qc.
Proof.
  unfold ltb; cbn. rewrite <- Qccompare_lt.
  destruct (a ?= b)%Qc; split; congruence.
Qed.

Lemma leb_Fin (a b : Qc) : Fin a <= Fin b <-> (a <= b)%Qc.
Proof.
  unfold leb; cbn. rewrite Qcle_alt.
  destruct (a ?= b)%Qc; split; congruence.
Qed.

Lemma gtb_Fin (a b : Qc) : Fin a > Fin b <-> (b < a)%Qc.
Proof. apply ltb_Fin. Qed.

(** The comparison is antisymmetric, reflexive on what is not [NaN], and
    undefined exactly when an operand is [NaN]. *)
Lemma compare_antisym (x y : number) :
  compare y x = option_map CompOpp (compare x y).
Proof.
  destruct x, y; cbn; try reflexivity.
  unfold Qccompare. now rewrite <- Qcompare_antisym.
Qed.

Lemma compare_refl (x : number) : isNaN x = false -> compare x x = Some Eq.
Proof.
  destruct x; cbn; try discriminate; try reflexivity.
  intros _. f_equal. now apply Qccompare_eq.
Qed.

Lemma compare_None (x y : number) :
  compare x y = None <-> isNaN x = true \/ isNaN y = true.
Proof.
  destruct x, y; cbn; split; intros; try discriminate; auto;
    destruct H; discriminate.
Qed.

Lemma compare_Some_not_NaN (x y : number) (c : comparison) :
  compare x y = Some c -> isNaN x = false /\ isNaN y = false.
Proof. destruct x, y; cbn; intros; try discriminate; auto. Qed.

(** [Math.min] and [Math.max] against their first argument. *)
Lemma min_not_above_l (x y : number) : gtb (Math.min x y) x = false.
Proof.
  unfold Math.min, gtb, ltb.
  destruct (compare x y) as [c|] eqn:E.
  - pose proof (compare_Some_not_NaN _ _ _ E) as [Hx _].
    destruct c; rewrite ?(compare_refl x Hx), ?E; reflexivity.
  - now destruct x.
Qed.

Lemma min_le_l (x y : number) :
  isNaN (Math.min x y) = false -> Math.min x y <= x.
Proof.
  unfold Math.min, leb.
  destruct (compare x y) as [c|] eqn:E; [|discriminate].
  pose proof (compare_Some_not_NaN _ _ _ E) as [Hx _]. intros _.
  destruct c; rewrite ?(compare_refl x Hx); try reflexivity.
  now rewrite compare_antisym, E.
Qed.

Lemma max_ge_l (x y : number) :
  isNaN (Math.max x y) = false -> Math.max x y >= x.
Proof.
  unfold Math.max, geb, leb.
  destruct (compare x y) as [c|] eqn:E; [|discriminate].
  pose proof (compare_Some_not_NaN _ _ _ E) as [Hx _]. intros _.
  destruct c; rewrite ?(compare_refl x Hx), ?E; reflexivity.
Qed.

Lemma max_NaN (x y : number) :
  isNaN (Math.max x y) = (isNaN x || isNaN y)%bool.
Proof.
  unfold Math.max. destruct (compare x y) as [c|] eqn:E.
  - pose proof (compare_Some_not_NaN _ _ _ E) as [Hx Hy].
    rewrite Hx, Hy. now destruct c.
  - apply compare_None in E. destruct E as [-> | ->]; cbn;
      now rewrite ?orb_true_r.
Qed.

Lemma round_NaN (x : number) : isNaN (Math.round x) = isNaN x.
Proof. now destruct x. Qed.

(** A finite number divided by a finite number other than 0. *)
Lemma isFinite_inv (x : number) : isFinite x = true -> exists q, x = Fin q.
Proof. destruct x; try discriminate. now exists q. Qed.

Lemma div_Fin (a b : Qc) : b <> 0%Qc -> Fin a / Fin b = Fin (a / b).
Proof.
  intro Hb. unfold div.
  destruct (b ?= 0)%Qc eqn:E; try reflexivity.
  now apply Qccompare_eq in E.
Qed.



(** Two concrete numbers are equal when their values are. *)
Ltac number_eq :=
  vm_compute;
  repeat match goal with
    | |- Fin _ = Fin _ => apply Fin_eq; vm_compute; reflexivity
    | |- _ => reflexivity
    | |- _ => f_equal
    end.

(* ------------------------------------------------------------------ *)
(** * The calculation *)

(** C1.  For every input record the annual savings returned are
    [(current_maintenance_cost - projected_maintenance_cost)
     + (current_downtime_hours * 12 * downtime_cost_per_hour)
       * (downtime_reduction_percent / 100)
     + team_salary_cost * (productivity_gain_percent / 100)
     + min(50000, current_deployments_per_year * 1000
                  * (deployment_increase_percent / 100))],
    and the three-year net benefit returned is that sum times 3 minus
    [modernization_cost]; neither output goes through a clamp or a
    rounding on its way to the result. *)
Theorem savings_and_net_benefit_pass_through (i : CalculatorInputs) :
  (computeROI i).(annual_savings) = spec_annual_savings i
  /\ (computeROI i).(net_benefit_3_years) = spec_net_benefit_3_years i
  /\ (computeROI i).(net_benefit_3_years)
     = (computeROI i).(annual_savings) * 3 - i.(modernization_cost).
Proof. repeat split. Qed.

(** C2.  On the default inputs the calculation returns annual savings
    1044000, a three-year net benefit of 2632000, an ROI of 526 percent
    and a payback of 6 months. *)
Theorem default_scenario :
  computeROI default_inputs
  = {| roi_percentage := 526;
       payback_months := 6;
       net_benefit_3_years := 2632000;
       annual_savings := 1044000 |}.
Proof. number_eq. Qed.

(** C5.  Whatever the inputs, the deployment efficiency gain computed in
    the calculation never exceeds 50000: the test [gain > 50000] is false
    for every input record, and unless the gain is [NaN] it is at most
    50000. *)
Theorem deployment_efficiency_gain_capped (i : CalculatorInputs) :
  gtb (Calc.deployment_efficiency_gain i) 50000 = false
  /\ (isNaN (Calc.deployment_efficiency_gain i) = true
      \/ Calc.deployment_efficiency_gain i <= 50000).
Proof.
  unfold Calc.deployment_efficiency_gain. split.
  - apply min_not_above_l.
  - destruct (isNaN (Math.min _ _)) eqn:E; [now left|right].
    now apply min_le_l.
Qed.

(** C9.  The results stored by the calculation are a function of the ten
    input numbers and of nothing else: two components whose ten inputs
    agree get the same four results, whatever else they hold, and those
    are the results of [computeROI] on the inputs. *)
Theorem results_depend_on_inputs_only (st1 st2 : Component) :
  (forall k, get st1.(inputs) k = get st2.(inputs) k) ->
  (calculateROI st1).(results) = (calculateROI st2).(results)
  /\ (calculateROI st1).(results) = computeROI st1.(inputs).
Proof.
  intro H. split; [|reflexivity].
  assert (E : st1.(inputs) = st2.(inputs)).
  { destruct st1 as [[] ?], st2 as [[] ?]; cbn in *.
    pose proof (H k_current_maintenance_cost).
    pose proof (H k_projected_maintenance_cost).
    pose proof (H k_current_downtime_hours).
    pose proof (H k_downtime_cost_per_hour).
    pose proof (H k_downtime_reduction_percent).
    pose proof (H k_current_deployments_per_year).
    pose proof (H k_deployment_increase_percent).
    pose proof (H k_modernization_cost).
    pose proof (H k_productivity_gain_percent).
    pose proof (H k_team_salary_cost).
    cbn in *. congruence. }
  unfold calculateROI, setResults; cbn. now rewrite E.
Qed.

(** Two components with the default inputs and different results on
    display compute the same results. *)
Lemma results_depend_on_inputs_only_witness :
  (calculateROI initial).(results)
  = (calculateROI (calculateROI initial)).(results)
  /\ (calculateROI initial).(results) = computeROI initial.(inputs).
Proof.
  apply (results_depend_on_inputs_only initial (calculateROI initial)).
  intro k. reflexivity.
Defined.

(* ------------------------------------------------------------------ *)
(** * The calculation where binary64 overflows *)

Section Overflow.

Import PrimFloat.
#[local] Open Scope float_scope.

(** On the default inputs the binary64 calculation returns what the exact
    one does. *)
Example binary64_default_scenario :
  Binary64.calculateROI Binary64.default_inputs
  = {| Binary64.roi_percentage := 526;
       Binary64.payback_months := 6;
       Binary64.net_benefit_3_years := 2632000;
       Binary64.annual_savings := 1044000 |}.
Proof. reflexivity. Qed.

(** Finite fields do not keep the intermediate values finite: a product
    of finite numbers overflows. *)
#[warnings="-inexact-float"]
Example binary64_product_overflows :
  is_finite 1e200 = true /\ 1e200 * 12 * 1e200 = infinity.
Proof. split; reflexivity. Qed.

(** C3.  On the record [Binary64.overflow_inputs], ten finite numbers with
    a cost of 500000, the maintenance savings overflow to [-Infinity] and
    the downtime savings to [Infinity]: the annual savings, the net
    benefit and the raw ROI are [NaN], and the ROI returned is
    [Math.max(50, NaN) = NaN], which is not at least 50, although the
    line that computes it is commented "Ensure minimum 50% ROI". *)
Theorem roi_percentage_NaN_by_overflow :
  Binary64.all_finite Binary64.overflow_inputs = true
  /\ (0 <? Binary64.overflow_inputs.(Binary64.modernization_cost)) = true
  /\ Binary64.calculateROI Binary64.overflow_inputs
     = {| Binary64.roi_percentage := nan;
          Binary64.payback_months := nan;
          Binary64.net_benefit_3_years := nan;
          Binary64.annual_savings := nan |}
  /\ (50 <=? (Binary64.calculateROI Binary64.overflow_inputs)
               .(Binary64.roi_percentage)) = false.
Proof. repeat split. Qed.

(** C8, counterexample.  Two records of finite numbers that differ only
    in the current maintenance cost, [-1e308] in the first and 250000 in
    the second: the annual savings and the net benefit of the first are
    [NaN] (the maintenance savings overflow to [-Infinity], the downtime
    savings are [Infinity]), those of the second are [Infinity], and
    [Infinity >= NaN] is false. *)
Lemma savings_not_monotone_by_overflow :
  Binary64.overflow_inputs
  = Binary64.overflowing_inputs
      Binary64.overflow_inputs.(Binary64.current_maintenance_cost)
  /\ Binary64.all_finite Binary64.overflow_inputs = true
  /\ Binary64.all_finite (Binary64.overflowing_inputs 250000) = true
  /\ (Binary64.overflow_inputs.(Binary64.current_maintenance_cost)
      <=? (Binary64.overflowing_inputs 250000)
            .(Binary64.current_maintenance_cost)) = true
  /\ (Binary64.calculateROI Binary64.overflow_inputs)
       .(Binary64.annual_savings) = nan
  /\ (Binary64.calculateROI (Binary64.overflowing_inputs 250000))
       .(Binary64.annual_savings) = infinity
  /\ ((Binary64.calculateROI Binary64.overflow_inputs)
        .(Binary64.annual_savings)
      <=? (Binary64.calculateROI (Binary64.overflowing_inputs 250000))
            .(Binary64.annual_savings)) = false
  /\ ((Binary64.calculateROI Binary64.overflow_inputs)
        .(Binary64.net_benefit_3_years)
      <=? (Binary64.calculateROI (Binary64.overflowing_inputs 250000))
            .(Binary64.net_benefit_3_years)) = false.
Proof. repeat split. Qed.

End Overflow.

(* ------------------------------------------------------------------ *)
(** * The floor on the ROI and the clamps on the payback *)

(** From canonical rationals to rationals, for [lra] and [nra]. *)
Ltac qc2q :=
  unfold Qcle, Qclt, Qcdiv, Qcminus, Qcplus, Qcmult, Qcopp, Qcinv, Q2Qc in *;
  cbn [this] in *;
  repeat match goal with
    | H : context [Qred _] |- _ => rewrite Qred_correct in H
    | |- context [Qred _] => rewrite Qred_correct
    end.

Lemma Q_div_neg (m t : Q) : (0 < m -> t < 0 -> m / t < 0)%Q.
Proof.
  intros Hm Ht. unfold Qdiv.
  assert (Hi : (t * / t == 1)%Q) by (apply Qmult_inv_r; lra).
  set (it := (/ t)%Q) in *. clearbody it. nra.
Qed.

Lemma Qfloor_half_nonpos (x : Q) : (x < 0)%Q -> (Qfloor (x + (1 # 2)) <= 0)%Z.
Proof.
  intro Hx. pose proof (Qfloor_le (x + (1 # 2))) as Hf.
  assert (H1 : (inject_Z (Qfloor (x + (1 # 2))) < inject_Z 1)%Q)
    by (change (inject_Z 1) with 1%Q; lra).
  rewrite <- Zlt_Qlt in H1. lia.
Qed.

Lemma gt_0_inv (x : number) :
  x > 0 -> x = Infinity \/ exists m, x = Fin m /\ (0 < m)%Qc.
Proof.
  intro H. destruct x as [ | | |m];
    [discriminate H | now left | discriminate H | right].
  exists m. split; [reflexivity|]. now apply gtb_Fin in H.
Qed.

Lemma lt_0_inv (x : number) :
  x < 0 -> x = NegInfinity \/ exists t, x = Fin t /\ (t < 0)%Qc.
Proof.
  intro H. destruct x as [ | | |t];
    [discriminate H | discriminate H | now left | right].
  exists t. split; [reflexivity|]. now apply ltb_Fin in H.
Qed.

Lemma Qc_lt_neq (a b : Qc) : (a < b)%Qc -> b <> a.
Proof. intros H E. subst. apply (Qclt_not_le _ _ H), Qcle_refl. Qed.

Lemma computeROI_eq (i : CalculatorInputs) :
  computeROI i
  = {| roi_percentage := Math.max 50 (Math.round (Calc.roi i));
       payback_months := Math.min 18 (Calc.payback_months i);
       net_benefit_3_years := Calc.net_benefit i;
       annual_savings := Calc.total_annual_savings i |}.
Proof. reflexivity. Qed.

Lemma roi_percentage_ge_50 (i : CalculatorInputs) :
  isNaN (Calc.roi i) = false -> (computeROI i).(roi_percentage) >= 50.
Proof. intro H. apply max_ge_l. rewrite max_NaN, round_NaN. exact H. Qed.

Lemma roi_not_NaN (i : CalculatorInputs) :
  isFinite i.(modernization_cost) = true ->
  i.(modernization_cost) > 0 ->
  isNaN (Calc.total_annual_savings i) = false ->
  isNaN (Calc.roi i) = false.
Proof.
  intros Hf Hm Ht.
  unfold Calc.roi, Calc.net_benefit, Calc.three_year_benefits.
  apply gt_0_inv in Hm as [Em | (m & Em & Hm)]; rewrite Em in *;
    [discriminate Hf|].
  apply Qccompare_gt in Hm.
  destruct (Calc.total_annual_savings i) as [ | | |t]; [discriminate Ht|..].
  - change (Infinity * 3 - Fin m) with Infinity. unfold div. now rewrite Hm.
  - change (NegInfinity * 3 - Fin m) with NegInfinity. unfold div.
    now rewrite Hm.
  - cbn [mul sub add neg]. rewrite div_Fin; [reflexivity|].
    now apply Qccompare_gt, Qc_lt_neq in Hm.
Qed.

Lemma roi_NaN_of_infinite_cost (i : CalculatorInputs) :
  i.(modernization_cost) = Infinity -> Calc.roi i = NaN.
Proof.
  intro E. unfold Calc.roi, Calc.net_benefit. rewrite E.
  now destruct (Calc.three_year_benefits i).
Qed.

Lemma roi_NaN_of_NaN_savings (i : CalculatorInputs) :
  isNaN (Calc.total_annual_savings i) = true -> Calc.roi i = NaN.
Proof.
  intro H. unfold Calc.roi, Calc.net_benefit, Calc.three_year_benefits.
  destruct (Calc.total_annual_savings i); try discriminate H. reflexivity.
Qed.

(** In the exact calculation the ROI returned for a cost above zero is
    [max(50, round(((annual_savings * 3 - modernization_cost) /
    modernization_cost) * 100))]; it is at least 50, also when the net
    benefit is negative, provided the cost is finite and the annual
    savings are a number; when the cost is [Infinity] or the annual
    savings are [NaN] the raw ROI is [NaN] and so is the ROI returned. *)
Theorem roi_percentage_floor (i : CalculatorInputs) :
  i.(modernization_cost) > 0 ->
  (computeROI i).(roi_percentage)
  = Math.max 50
      (Math.round
         ((((computeROI i).(annual_savings) * 3 - i.(modernization_cost))
           / i.(modernization_cost)) * 100))
  /\ (isFinite i.(modernization_cost) = true ->
      isNaN (computeROI i).(annual_savings) = false ->
      (computeROI i).(roi_percentage) >= 50)
  /\ (isFinite i.(modernization_cost) = false ->
      (computeROI i).(roi_percentage) = NaN)
  /\ (isNaN (computeROI i).(annual_savings) = true ->
      (computeROI i).(roi_percentage) = NaN).
Proof.
  intro Hmc. split; [reflexivity|]. split; [|split].
  - intros Hf Hs. now apply roi_percentage_ge_50, roi_not_NaN.
  - intro Hf. rewrite computeROI_eq. cbn [roi_percentage].
    rewrite roi_NaN_of_infinite_cost; [reflexivity|].
    apply gt_0_inv in Hmc as [E | (m & E & _)]; [exact E|].
    rewrite E in Hf. discriminate Hf.
  - intro Hs. rewrite computeROI_eq. cbn [roi_percentage].
    now rewrite roi_NaN_of_NaN_savings.
Qed.

(** On the default inputs with a current maintenance cost of -2000000 the
    net benefit is negative and the ROI returned is the floor, 50. *)
Lemma roi_percentage_floor_witness :
  annual_loss_inputs.(modernization_cost) > 0
  /\ isFinite annual_loss_inputs.(modernization_cost) = true
  /\ isNaN (computeROI annual_loss_inputs).(annual_savings) = false
  /\ (computeROI annual_loss_inputs).(net_benefit_3_years) < 0
  /\ (computeROI annual_loss_inputs).(roi_percentage) >= 50.
Proof.
  do 4 (split; [reflexivity|]).
  apply (roi_percentage_floor annual_loss_inputs); reflexivity.
Defined.

(** C10.  For every input record with a finite [modernization_cost > 0]
    and [total_annual_savings < 0] the payback returned is 1 month: the
    ratio of the cost to the savings is negative or zero, it is rounded,
    and the floor at 1 raises it to 1. *)
Theorem payback_of_annual_loss (i : CalculatorInputs) :
  isFinite i.(modernization_cost) = true ->
  i.(modernization_cost) > 0 ->
  Calc.total_annual_savings i < 0 ->
  (computeROI i).(payback_months) = 1.
Proof.
  intros Hf Hm Ht. rewrite computeROI_eq. cbn [payback_months].
  unfold Calc.payback_months.
  apply gt_0_inv in Hm as [E | (m & E & Hm)]; rewrite E in *;
    [discriminate Hf|].
  apply lt_0_inv in Ht as [-> | (t & -> & Ht)].
  - unfold div. reflexivity.
  - rewrite div_Fin by now apply not_eq_sym, Qc_lt_neq.
    cbn [mul]. rewrite round_Fin.
    change 1 with (of_Z 1). change 18 with (of_Z 18).
    rewrite max_of_Z, min_of_Z. f_equal.
    match goal with |- Z.min _ (Z.max _ ?z) = _ =>
      assert (H : (z <= 0)%Z); [|lia] end.
    apply Qfloor_half_nonpos. pose proof (Q_div_neg m t) as Hd.
    revert Hd. unfold Qdiv. qc2q. intro Hd. specialize (Hd Hm Ht). lra.
Qed.

Lemma payback_of_annual_loss_witness :
  isFinite annual_loss_inputs.(modernization_cost) = true
  /\ annual_loss_inputs.(modernization_cost) > 0
  /\ Calc.total_annual_savings annual_loss_inputs < 0
  /\ (computeROI annual_loss_inputs).(payback_months) = 1.
Proof.
  do 3 (split; [reflexivity|]).
  apply (payback_of_annual_loss annual_loss_inputs); reflexivity.
Defined.

(** The clamps on the payback and the floor on the ROI for a finite
    positive cost and positive savings. *)
Lemma payback_and_roi_of_positive_savings (i : CalculatorInputs) :
  isFinite i.(modernization_cost) = true ->
  i.(modernization_cost) > 0 ->
  Calc.total_annual_savings i > 0 ->
  isInteger (computeROI i).(payback_months) = true
  /\ 1 <= (computeROI i).(payback_months)
  /\ (computeROI i).(payback_months) <= 18
  /\ (computeROI i).(roi_percentage) >= 50.
Proof.
  intros Hf Hmc Ht.
  assert (Hroi : (computeROI i).(roi_percentage) >= 50).
  { apply roi_percentage_ge_50, roi_not_NaN; try assumption.
    apply gt_0_inv in Ht as [E | (t & E & _)]; now rewrite E. }
  rewrite computeROI_eq in *. cbn [payback_months roi_percentage] in *.
  unfold Calc.payback_months.
  apply isFinite_inv in Hf as [m Em]. rewrite Em in *.
  apply gt_0_inv in Ht as [-> | (t & -> & Ht)].
  - repeat split; try reflexivity. exact Hroi.
  - rewrite div_Fin by now apply Qc_lt_neq.
    cbn [mul]. rewrite round_Fin.
    change 1 with (of_Z 1). change 18 with (of_Z 18).
    rewrite max_of_Z, min_of_Z, isInteger_of_Z, !leb_of_Z.
    repeat split; try apply Z.leb_le; try lia. exact Hroi.
Qed.

(** C4.  For valid positive inputs, every field a finite number above zero
    and the total annual savings above zero, the payback returned is
    [min(18, max(1, round((modernization_cost / total_annual_savings) *
    12)))], an integer between 1 and 18, and the ROI returned is at least
    50. *)
Theorem payback_and_roi_on_valid_positive_inputs (i : CalculatorInputs) :
  (forall k, valid_positive (get i k)) ->
  Calc.total_annual_savings i > 0 ->
  (computeROI i).(payback_months)
  = Math.min 18
      (Math.max 1
         (Math.round
            ((i.(modernization_cost) / Calc.total_annual_savings i) * 12)))
  /\ isInteger (computeROI i).(payback_months) = true
  /\ 1 <= (computeROI i).(payback_months)
  /\ (computeROI i).(payback_months) <= 18
  /\ (computeROI i).(roi_percentage) >= 50.
Proof.
  intros Hv Ht. split; [reflexivity|].
  destruct (Hv k_modernization_cost) as [Hf Hmc].
  now apply payback_and_roi_of_positive_savings.
Qed.

Lemma payback_and_roi_on_valid_positive_inputs_witness :
  (forall k, valid_positive (get default_inputs k))
  /\ Calc.total_annual_savings default_inputs > 0
  /\ isInteger (computeROI default_inputs).(payback_months) = true
  /\ 1 <= (computeROI default_inputs).(payback_months)
  /\ (computeROI default_inputs).(payback_months) <= 18
  /\ (computeROI default_inputs).(roi_percentage) >= 50.
Proof.
  assert (Hv : forall k, valid_positive (get default_inputs k))
    by (intro k; destruct k; split; reflexivity).
  split; [exact Hv|]. split; [reflexivity|].
  apply (payback_and_roi_on_valid_positive_inputs default_inputs Hv).
  reflexivity.
Defined.

(** With a cost of [Infinity], which is above zero but not a valid
    amount, the ROI returned is [NaN] although every field and the savings
    are above zero. *)
Example roi_percentage_NaN_on_positive_inputs :
  (forall k, get infinite_cost_inputs k > 0)
  /\ Calc.total_annual_savings infinite_cost_inputs > 0
  /\ (computeROI infinite_cost_inputs).(roi_percentage) = NaN.
Proof.
  split; [|repeat split]. intro k; destruct k; reflexivity.
Qed.

(* ------------------------------------------------------------------ *)
(** * Monotonicity in the current maintenance cost *)

Lemma add_not_NaN_l (x z : number) : isNaN (x + z) = false -> isNaN x = false.
Proof. now destruct x, z. Qed.

Lemma leb_add_r (x y z : number) :
  x <= y -> isNaN (x + z) = false -> isNaN (y + z) = false ->
  x + z <= y + z.
Proof.
  intros H Hx Hy.
  destruct x as [ | | |a], y as [ | | |b], z as [ | | |c];
    try discriminate H; try discriminate Hx; try discriminate Hy;
    try reflexivity.
  apply leb_Fin. apply leb_Fin in H.
  apply Qcplus_le_compat; [exact H | apply Qcle_refl].
Qed.

Lemma leb_sub_r (x y z : number) :
  x <= y -> isNaN (x - z) = false -> isNaN (y - z) = false ->
  x - z <= y - z.
Proof. apply leb_add_r. Qed.

Lemma leb_mul_3 (x y : number) : x <= y -> x * 3 <= y * 3.
Proof.
  intro H.
  destruct x as [ | | |a], y as [ | | |b];
    try discriminate H; try reflexivity.
  apply leb_Fin. apply leb_Fin in H.
  apply Qcmult_le_compat_r; [exact H | discriminate].
Qed.

Lemma mul_3_not_NaN (x : number) : isNaN (x * 3) = false -> isNaN x = false.
Proof. now destruct x. Qed.

(** The sum and the net benefit as functions of the current maintenance
    cost [c], the other terms ([p] the projected cost, [ds], [pv] and [deg]
    the three other savings, [mc] the cost of the modernization) being
    fixed. *)
Lemma total_monotone (p ds pv deg c1 c2 : number) :
  c1 <= c2 ->
  isNaN (c1 - p + ds + pv + deg) = false ->
  isNaN (c2 - p + ds + pv + deg) = false ->
  c1 - p + ds + pv + deg <= c2 - p + ds + pv + deg.
Proof.
  intros H H1 H2.
  pose proof (add_not_NaN_l _ _ H1) as H1'.
  pose proof (add_not_NaN_l _ _ H2) as H2'.
  pose proof (add_not_NaN_l _ _ H1') as H1''.
  pose proof (add_not_NaN_l _ _ H2') as H2''.
  pose proof (add_not_NaN_l _ _ H1'') as H1s.
  pose proof (add_not_NaN_l _ _ H2'') as H2s.
  do 3 (apply leb_add_r; [|assumption|assumption]).
  now apply leb_sub_r.
Qed.

Lemma net_monotone (p ds pv deg mc c1 c2 : number) :
  c1 <= c2 ->
  isNaN ((c1 - p + ds + pv + deg) * 3 - mc) = false ->
  isNaN ((c2 - p + ds + pv + deg) * 3 - mc) = false ->
  (c1 - p + ds + pv + deg) * 3 - mc <= (c2 - p + ds + pv + deg) * 3 - mc.
Proof.
  intros H H1 H2.
  apply leb_sub_r; try assumption.
  apply leb_mul_3, total_monotone; try assumption.
  - now apply mul_3_not_NaN, add_not_NaN_l with (z := (- mc)).
  - now apply mul_3_not_NaN, add_not_NaN_l with (z := (- mc)).
Qed.

Lemma differ_only_in_inv (i1 i2 : CalculatorInputs) :
  differ_only_in k_current_maintenance_cost i1 i2 ->
  i2 = spread i1 k_current_maintenance_cost i2.(current_maintenance_cost).
Proof.
  intro H.
  pose proof (H k_projected_maintenance_cost ltac:(discriminate)).
  pose proof (H k_current_downtime_hours ltac:(discriminate)).
  pose proof (H k_downtime_cost_per_hour ltac:(discriminate)).
  pose proof (H k_downtime_reduction_percent ltac:(discriminate)).
  pose proof (H k_current_deployments_per_year ltac:(discriminate)).
  pose proof (H k_deployment_increase_percent ltac:(discriminate)).
  pose proof (H k_modernization_cost ltac:(discriminate)).
  pose proof (H k_productivity_gain_percent ltac:(discriminate)).
  pose proof (H k_team_salary_cost ltac:(discriminate)).
  clear H. destruct i1, i2. cbn in *. subst. reflexivity.
Qed.

(** C8, amended.  For every pair of input records that differ only in
    [current_maintenance_cost], the second's being greater than or equal
    to the first's, the annual savings of the second are greater than or
    equal to those of the first unless one of the two is [NaN], and so is
    the three-year net benefit. *)
Theorem savings_monotone_in_current_maintenance_cost
  (i1 i2 : CalculatorInputs) :
  differ_only_in k_current_maintenance_cost i1 i2 ->
  i2.(current_maintenance_cost) >= i1.(current_maintenance_cost) ->
  (isNaN (computeROI i1).(annual_savings) = false ->
   isNaN (computeROI i2).(annual_savings) = false ->
   (computeROI i2).(annual_savings) >= (computeROI i1).(annual_savings))
  /\ (isNaN (computeROI i1).(net_benefit_3_years) = false ->
      isNaN (computeROI i2).(net_benefit_3_years) = false ->
      (computeROI i2).(net_benefit_3_years)
      >= (computeROI i1).(net_benefit_3_years)).
Proof.
  intros Hd Hc. rewrite (differ_only_in_inv i1 i2 Hd). split.
  - apply total_monotone, Hc.
  - apply net_monotone, Hc.
Qed.

Lemma savings_monotone_in_current_maintenance_cost_witness :
  differ_only_in k_current_maintenance_cost annual_loss_inputs default_inputs
  /\ default_inputs.(current_maintenance_cost)
     >= annual_loss_inputs.(current_maintenance_cost)
  /\ isNaN (computeROI annual_loss_inputs).(annual_savings) = false
  /\ isNaN (computeROI default_inputs).(annual_savings) = false
  /\ isNaN (computeROI annual_loss_inputs).(net_benefit_3_years) = false
  /\ isNaN (computeROI default_inputs).(net_benefit_3_years) = false
  /\ (computeROI default_inputs).(annual_savings)
     >= (computeROI annual_loss_inputs).(annual_savings)
  /\ (computeROI default_inputs).(net_benefit_3_years)
     >= (computeROI annual_loss_inputs).(net_benefit_3_years).
Proof.
  assert (Hd : differ_only_in k_current_maintenance_cost
                 annual_loss_inputs default_inputs).
  { intros k Hk. destruct k; try reflexivity. now elim Hk. }
  assert (Hc : default_inputs.(current_maintenance_cost)
               >= annual_loss_inputs.(current_maintenance_cost))
    by reflexivity.
  split; [exact Hd|]. split; [exact Hc|].
  do 4 (split; [reflexivity|]).
  destruct (savings_monotone_in_current_maintenance_cost
              annual_loss_inputs default_inputs Hd Hc) as [Ha Hn].
  split; [apply Ha | apply Hn]; reflexivity.
Defined.

(* ------------------------------------------------------------------ *)
(** * What the handler stores *)

Lemma get_spread_same (prev : CalculatorInputs) (field : key) (v : number) :
  get (spread prev field v) field = v.
Proof. now destruct field. Qed.

Lemma get_spread_other (prev : CalculatorInputs) (field k : key)
  (v : number) :
  k <> field -> get (spread prev field v) k = get prev k.
Proof. intro H. destruct field, k; try reflexivity; now elim H. Qed.

Lemma or_else_0 (x : number) : or_else x 0 = if isNaN x then 0 else x.
Proof.
  unfold or_else. destruct x as [ | | |q]; try reflexivity.
  cbn [truthy isNaN]. destruct (Qeq_bool q 0) eqn:E; [|reflexivity].
  cbn [negb]. symmetry. apply Fin_eq. now apply Qeq_bool_eq.
Qed.

(** [parseFloat] gives [NaN] exactly on the texts that are not numeric. *)
Lemma digits_count_ge (s : string) (acc : Z) (n : nat) :
  (n <= snd (fst (digits s acc n)))%nat.
Proof.
  revert acc n. induction s as [|c r IH]; intros acc n; [cbn; lia|].
  cbn [digits]. destruct (digit c) as [d|]; [|cbn; lia].
  eapply Nat.le_trans; [|apply IH]. lia.
Qed.

Lemma digits_no_digit (s : string) (acc : Z) (n : nat) :
  starts_with_digit s = false -> digits s acc n = (acc, n, s).
Proof.
  destruct s as [|c r]; cbn; [reflexivity|].
  now destruct (digit c).
Qed.

Lemma digits_some_digit (s : string) (acc : Z) (n : nat) :
  starts_with_digit s = true -> (S n <= snd (fst (digits s acc n)))%nat.
Proof.
  destruct s as [|c r]; cbn; [discriminate|].
  destruct (digit c); [|discriminate]. intros _. apply digits_count_ge.
Qed.

Lemma unsigned_literal_NaN (negative : bool) (body : string) :
  isNaN (unsigned_literal negative body)
  = negb (prefix "Infinity" body
          || starts_with_digit body
          || match body with
             | String c r => Ascii.eqb c "." && starts_with_digit r
             | EmptyString => false
             end)%bool.
Proof.
  unfold unsigned_literal.
  destruct (prefix "Infinity" body); [now destruct negative|].
  cbn [orb]. destruct (starts_with_digit body) eqn:Hd.
  - pose proof (digits_some_digit body 0%Z O Hd) as H.
    destruct (digits body 0%Z O) as [[ip ni] r1]. cbn in H.
    destruct (match r1 with
              | String c r =>
                  if Ascii.eqb c "." then digits r ip O else (ip, O, r1)
              | EmptyString => (ip, O, r1)
              end) as [[m nf] r2].
    destruct ni; [lia|]. reflexivity.
  - rewrite (digits_no_digit body 0%Z O Hd). cbn [orb].
    destruct body as [|c r]; [reflexivity|].
    destruct (Ascii.eqb c "."); [|reflexivity]. cbn [andb].
    destruct (starts_with_digit r) eqn:Hr.
    + pose proof (digits_some_digit r 0%Z O Hr) as H.
      destruct (digits r 0%Z O) as [[m nf] r2]. cbn in H.
      destruct nf; [lia|]. reflexivity.
    + now rewrite (digits_no_digit r 0%Z O Hr).
Qed.

Lemma parseFloat_NaN (value : string) :
  isNaN (parseFloat value) = negb (numeric value).
Proof.
  unfold parseFloat, numeric.
  destruct (split_sign (trimStart value)) as [negative body].
  apply unsigned_literal_NaN.
Qed.

(** What [parseFloat] reads from a few texts. *)
Example parseFloat_not_numeric :
  parseFloat "" = NaN /\ parseFloat "abc" = NaN /\ parseFloat "." = NaN
  /\ parseFloat "-" = NaN /\ parseFloat "e5" = NaN.
Proof. repeat split. Qed.

Example parseFloat_numeric :
  parseFloat "250000" = 250000 /\ parseFloat "  12.50abc" = 25 / 2
  /\ parseFloat "1.5e3" = 1500 /\ parseFloat "-.5" = - (1 / 2)
  /\ parseFloat "5." = 5 /\ parseFloat "1e" = 1
  /\ parseFloat "Infinity" = Infinity /\ parseFloat "-Infinity" = NegInfinity.
Proof. repeat split; number_eq. Qed.

Example handler_on_not_numeric :
  numeric "abc" = false
  /\ (handleInputChange k_team_salary_cost "abc"
        initial).(inputs).(team_salary_cost) = 0.
Proof. split; reflexivity. Qed.

(** The input records of the examples are what the handler stores when
    it is called with the texts, starting from the initial component.
    (The number inputs of the form hand it the texts of finite numbers
    and the empty text only: not the text [Infinity].) *)
Example inputs_reached_by_typing :
  (handleInputChange k_modernization_cost "Infinity" initial).(inputs)
  = infinite_cost_inputs
  /\ (handleInputChange k_projected_maintenance_cost "Infinity"
        (handleInputChange k_modernization_cost "Infinity" initial)).(inputs)
     = infinite_cost_and_projection_inputs
  /\ (handleInputChange k_projected_maintenance_cost "Infinity"
        initial).(inputs)
     = infinite_projection_inputs
  /\ (handleInputChange k_current_maintenance_cost "Infinity"
        (handleInputChange k_projected_maintenance_cost "Infinity"
           initial)).(inputs)
     = infinite_maintenance_inputs
  /\ (handleInputChange k_current_maintenance_cost "-2000000"
        initial).(inputs)
     = annual_loss_inputs
  /\ (handleInputChange k_modernization_cost "0" initial).(inputs)
     = zero_cost_inputs
  /\ (handleInputChange k_current_maintenance_cost "-794000"
        (handleInputChange k_modernization_cost "0" initial)).(inputs)
     = zero_cost_zero_savings_inputs.
Proof. repeat split; number_eq. Qed.

(** C6, counterexample.  [-5] typed into the current maintenance field is
    stored as [-5], not as 0, and the calculation that follows reads a
    negative number. *)
Lemma negative_input_is_stored :
  negative_maintenance.(inputs).(current_maintenance_cost) = - 5
  /\ negative_maintenance.(inputs).(current_maintenance_cost) < 0
  /\ geb negative_maintenance.(inputs).(current_maintenance_cost) 0 = false
  /\ (onChange k_current_maintenance_cost "-5" initial).(results)
     = computeROI negative_maintenance.(inputs).
Proof. repeat split. Qed.

(** C6, amended.  For every text entered in a field the handler stores in
    that field, before the calculation runs, 0 when the text is not
    numeric and otherwise the number [parseFloat] reads from it, leaving
    the other fields as they were: a stored number is never [NaN], and
    negative numeric input stays negative, so the calculation can receive
    negative numbers. *)
Theorem handler_stores_parsed_number (field : key) (value : string)
  (st : Component) :
  get (handleInputChange field value st).(inputs) field
  = (if numeric value then parseFloat value else 0)
  /\ (forall k, k <> field ->
      get (handleInputChange field value st).(inputs) k = get st.(inputs) k)
  /\ isNaN (get (handleInputChange field value st).(inputs) field) = false
  /\ (parseFloat value < 0 ->
      get (handleInputChange field value st).(inputs) field < 0)
  /\ (onChange field value st).(results)
     = computeROI (handleInputChange field value st).(inputs).
Proof.
  assert (E : get (handleInputChange field value st).(inputs) field
              = if isNaN (parseFloat value) then 0 else parseFloat value).
  { unfold handleInputChange, setInputs. cbn [inputs].
    now rewrite get_spread_same, or_else_0. }
  rewrite E, parseFloat_NaN.
  split; [now destruct (numeric value)|]. split; [|split; [|split]].
  - intros k Hk. now apply get_spread_other.
  - rewrite <- parseFloat_NaN. now destruct (parseFloat value).
  - rewrite <- parseFloat_NaN. intro H.
    destruct (parseFloat value); try discriminate H; exact H.
  - reflexivity.
Qed.

Lemma handler_stores_parsed_number_witness :
  parseFloat "-5" < 0
  /\ k_modernization_cost <> k_current_maintenance_cost
  /\ get negative_maintenance.(inputs) k_current_maintenance_cost < 0
  /\ get negative_maintenance.(inputs) k_modernization_cost
     = get initial.(inputs) k_modernization_cost.
Proof.
  split; [reflexivity|]. split; [discriminate|]. split.
  - apply (handler_stores_parsed_number k_current_maintenance_cost "-5"
             initial). reflexivity.
  - apply (handler_stores_parsed_number k_current_maintenance_cost "-5"
             initial). discriminate.
Defined.

(* ------------------------------------------------------------------ *)
(** * The two divisions by an input-dependent divisor *)








(* ------------------------------------------------------------------ *)
(** * The component over a sequence of changes *)

Lemma key_eqb_eq (a b : key) : key_eqb a b = true <-> a = b.
Proof. destruct a, b; cbn; split; intro H; congruence. Qed.

Lemma key_eqb_neq (a b : key) : key_eqb a b = false <-> a <> b.
Proof. destruct a, b; cbn; split; intro H; congruence. Qed.

Lemma onChange_inputs (field : key) (value : string) (st : Component) :
  (onChange field value st).(inputs)
  = spread st.(inputs) field (numValue value).
Proof. reflexivity. Qed.

Lemma onChange_results (field : key) (value : string) (st : Component) :
  (onChange field value st).(results)
  = computeROI (onChange field value st).(inputs).
Proof. reflexivity. Qed.

Lemma numValue_not_NaN (value : string) : isNaN (numValue value) = false.
Proof.
  unfold numValue. rewrite or_else_0. now destruct (parseFloat value).
Qed.

Lemma get_spread (prev : CalculatorInputs) (field k : key) (v : number) :
  get (spread prev field v) k = if key_eqb field k then v else get prev k.
Proof.
  destruct (key_eqb field k) eqn:E.
  - apply key_eqb_eq in E. subst. apply get_spread_same.
  - apply key_eqb_neq in E. apply get_spread_other. congruence.
Qed.

Lemma spread_spread_same (prev : CalculatorInputs) (field : key)
  (v w : number) :
  spread (spread prev field v) field w = spread prev field w.
Proof. now destruct field. Qed.

Lemma spread_spread_comm (prev : CalculatorInputs) (f1 f2 : key)
  (v w : number) :
  f1 <> f2 ->
  spread (spread prev f1 v) f2 w = spread (spread prev f2 w) f1 v.
Proof. intro H. destruct f1, f2; try reflexivity; now elim H. Qed.

Lemma component_eq (st1 st2 : Component) :
  st1.(inputs) = st2.(inputs) -> st1.(results) = st2.(results) -> st1 = st2.
Proof. destruct st1, st2; cbn; congruence. Qed.

(** X1.  After any sequence of changes each input field holds the number
    stored for the last text typed into that field, and the value it had
    before when nothing was typed into it: earlier texts and texts typed
    into other fields leave no trace. *)
Theorem events_last_write_wins (evs : list event) (st : Component)
  (k : key) :
  get (events evs st).(inputs) k = last_value k evs (get st.(inputs) k).
Proof.
  revert st. induction evs as [|[field value] rest IH]; intro st.
  - reflexivity.
  - cbn [events last_value]. rewrite IH, onChange_inputs, get_spread.
    reflexivity.
Qed.

Lemma events_not_NaN (evs : list event) (st : Component) :
  (forall k, isNaN (get st.(inputs) k) = false) ->
  forall k, isNaN (get (events evs st).(inputs) k) = false.
Proof.
  revert st. induction evs as [|[field value] rest IH]; intros st H k.
  - apply H.
  - cbn [events]. apply IH. intro k'. rewrite onChange_inputs, get_spread.
    destruct (key_eqb field k'); [apply numValue_not_NaN | apply H].
Qed.

(** X3.  No input field ever holds [NaN]: not on mount, and not after any
    sequence of changes, whatever texts are typed. *)
Theorem inputs_never_NaN (evs : list event) (k : key) :
  isNaN (get (events evs mount).(inputs) k) = false.
Proof.
  apply events_not_NaN. intro k'. now destruct k'.
Qed.

(** X4.  Typing into the same field twice leaves the component as if only
    the second text had been typed. *)
Theorem onChange_overwrites (field : key) (v1 v2 : string)
  (st : Component) :
  onChange field v2 (onChange field v1 st) = onChange field v2 st.
Proof.
  assert (E : (onChange field v2 (onChange field v1 st)).(inputs)
              = (onChange field v2 st).(inputs)).
  { rewrite !onChange_inputs. apply spread_spread_same. }
  apply component_eq; [exact E|].
  rewrite !onChange_results. now rewrite E.
Qed.

(** X5.  Changes of two different fields commute: the component ends up
    the same whichever of the two texts is typed first. *)
Theorem onChange_commutes (f1 f2 : key) (v1 v2 : string)
  (st : Component) :
  f1 <> f2 ->
  onChange f1 v1 (onChange f2 v2 st) = onChange f2 v2 (onChange f1 v1 st).
Proof.
  intro H.
  assert (E : (onChange f1 v1 (onChange f2 v2 st)).(inputs)
              = (onChange f2 v2 (onChange f1 v1 st)).(inputs)).
  { rewrite !onChange_inputs. apply spread_spread_comm. congruence. }
  apply component_eq; [exact E|].
  rewrite !onChange_results. now rewrite E.
Qed.

Lemma onChange_commutes_witness :
  k_modernization_cost <> k_team_salary_cost
  /\ onChange k_modernization_cost "400000"
       (onChange k_team_salary_cost "900000" mount)
     = onChange k_team_salary_cost "900000"
         (onChange k_modernization_cost "400000" mount).
Proof.
  assert (H : k_modernization_cost <> k_team_salary_cost) by discriminate.
  split; [exact H|].
  apply (onChange_commutes k_modernization_cost k_team_salary_cost
           "400000" "900000" mount H).
Defined.

(* ------------------------------------------------------------------ *)
(** * What the handler reads from a text *)

Lemma trimStart_app (ws s : string) :
  all_white ws = true -> trimStart (ws ++ s) = trimStart s.
Proof.
  induction ws as [|c r IH]; cbn; [reflexivity|].
  destruct (isWhiteSpace c); [exact IH | discriminate].
Qed.

Lemma parseFloat_app_white (ws s : string) :
  all_white ws = true -> parseFloat (ws ++ s) = parseFloat s.
Proof. intro H. unfold parseFloat. now rewrite trimStart_app. Qed.

(** X6.  White space typed before a text is ignored: the component ends
    up the same with and without it. *)
Theorem onChange_skips_leading_white_space (field : key) (ws value : string)
  (st : Component) :
  all_white ws = true ->
  onChange field (ws ++ value) st = onChange field value st.
Proof.
  intro H. unfold onChange, handleInputChange.
  now rewrite parseFloat_app_white.
Qed.

Lemma onChange_skips_leading_white_space_witness :
  all_white "  " = true
  /\ onChange k_team_salary_cost ("  " ++ "900000") mount
     = onChange k_team_salary_cost "900000" mount.
Proof.
  split; [reflexivity|].
  apply (onChange_skips_leading_white_space k_team_salary_cost "  "
           "900000" mount). reflexivity.
Defined.

Lemma unsigned_literal_neg (body : string) :
  unsigned_literal true body = - unsigned_literal false body.
Proof.
  unfold unsigned_literal.
  destruct (prefix "Infinity" body); [reflexivity|].
  destruct (digits body 0%Z O) as [[ip ni] r1].
  destruct (match r1 with
            | String c r =>
                if Ascii.eqb c "." then digits r ip O else (ip, O, r1)
            | EmptyString => (ip, O, r1)
            end) as [[m nf] r2].
  now destruct (ni + nf)%nat.
Qed.

Lemma parseFloat_unsigned (s : string) :
  unsigned s = true -> parseFloat s = unsigned_literal false s.
Proof.
  unfold parseFloat, unsigned. destruct s as [|c r]; [reflexivity|].
  cbn [trimStart]. destruct (isWhiteSpace c); [discriminate|].
  unfold split_sign.
  destruct (Ascii.eqb c "-"); [discriminate|].
  destruct (Ascii.eqb c "+"); [discriminate|]. reflexivity.
Qed.

Lemma numValue_neg (x : number) : or_else (- x) 0 = - or_else x 0.
Proof.
  rewrite !or_else_0. destruct x; reflexivity.
Qed.

(** X7.  A plus sign before a text that starts with neither white space
    nor a sign changes nothing, and a minus sign negates the number
    stored: no sign makes a text numeric or not numeric. *)
Theorem onChange_sign (field : key) (value : string) (st : Component) :
  unsigned value = true ->
  get (onChange field (String "+" value) st).(inputs) field
  = get (onChange field value st).(inputs) field
  /\ get (onChange field (String "-" value) st).(inputs) field
     = - get (onChange field value st).(inputs) field
  /\ numeric (String "+" value) = numeric value
  /\ numeric (String "-" value) = numeric value.
Proof.
  intro H. rewrite !onChange_inputs, !get_spread_same. unfold numValue.
  assert (Ep : parseFloat (String "+" value) = parseFloat value).
  { rewrite (parseFloat_unsigned value H). reflexivity. }
  assert (Em : parseFloat (String "-" value) = - parseFloat value).
  { rewrite (parseFloat_unsigned value H). apply unsigned_literal_neg. }
  split; [now rewrite Ep|]. split; [now rewrite Em, numValue_neg|].
  pose proof (parseFloat_NaN (String "+" value)) as Np.
  pose proof (parseFloat_NaN (String "-" value)) as Nm.
  pose proof (parseFloat_NaN value) as N0.
  rewrite Ep, N0 in Np. rewrite Em in Nm.
  replace (isNaN (- parseFloat value)) with (isNaN (parseFloat value)) in Nm
    by now destruct (parseFloat value).
  rewrite N0 in Nm.
  split; [now destruct (numeric (String "+" value)), (numeric value)
         | now destruct (numeric (String "-" value)), (numeric value)].
Qed.

Lemma onChange_sign_witness :
  unsigned "12.5" = true
  /\ get (onChange k_current_downtime_hours "-12.5" mount).(inputs)
       k_current_downtime_hours
     = - get (onChange k_current_downtime_hours "12.5" mount).(inputs)
           k_current_downtime_hours.
Proof.
  split; [reflexivity|].
  apply (onChange_sign k_current_downtime_hours "12.5" mount). reflexivity.
Defined.

Lemma uint_acc_pos (d : Decimal.uint) (p : positive) :
  uint_acc d (Zpos p) = Zpos (Pos.of_uint_acc d p).
Proof.
  revert p. induction d; intro p; cbn [uint_acc Pos.of_uint_acc];
    try reflexivity;
    match goal with
    | |- uint_acc _ ?a = Zpos (Pos.of_uint_acc _ ?q) =>
        replace a with (Zpos q) by lia; apply IHd
    end.
Qed.

Lemma uint_acc_0 (d : Decimal.uint) : uint_acc d 0 = Z.of_N (Pos.of_uint d).
Proof.
  induction d; cbn [uint_acc Pos.of_uint]; try reflexivity;
    try (exact IHd); apply uint_acc_pos.
Qed.

Lemma digits_uint (d : Decimal.uint) (t : string) (acc : Z) (c : nat) :
  starts_with_digit t = false ->
  digits (NilEmpty.string_of_uint d ++ t) acc c
  = (uint_acc d acc, (c + Decimal.nb_digits d)%nat, t).
Proof.
  intro Ht. revert acc c.
  induction d; intros acc c;
    cbn [NilEmpty.string_of_uint append digits uint_acc Decimal.nb_digits];
    [rewrite Nat.add_0_r; now apply digits_no_digit|..];
    (etransitivity; [apply IHd|]); f_equal; f_equal; lia.
Qed.

Lemma unsigned_literal_uint (negative : bool) (d : Decimal.uint)
  (t : string) :
  d <> Decimal.Nil -> ends_number t = true ->
  unsigned_literal negative (NilEmpty.string_of_uint d ++ t)
  = Fin (if negative then (- Q2Qc (inject_Z (uint_acc d 0)))%Qc
         else Q2Qc (inject_Z (uint_acc d 0))).
Proof.
  intros Hd Ht. unfold unsigned_literal.
  assert (Hp : prefix "Infinity" (NilEmpty.string_of_uint d ++ t) = false)
    by (destruct d; [now elim Hd | reflexivity..]).
  assert (Hs : starts_with_digit t = false).
  { destruct t as [|c r]; [reflexivity|]. unfold ends_number in Ht.
    now destruct (starts_with_digit (String c r)). }
  rewrite Hp, (digits_uint d t 0%Z O Hs).
  assert (Hn : exists n, (0 + Decimal.nb_digits d)%nat = S n)
    by (destruct d; [now elim Hd | cbn; eauto..]).
  destruct Hn as [n ->].
  assert (Hr : match t with
               | String c r =>
                   if Ascii.eqb c "." then digits r (uint_acc d 0) O
                   else (uint_acc d 0, O, t)
               | EmptyString => (uint_acc d 0, O, t)
               end = (uint_acc d 0, O, t)).
  { destruct t as [|c r]; [reflexivity|]. unfold ends_number in Ht.
    destruct (Ascii.eqb c "."); [|reflexivity].
    now rewrite !andb_false_r in Ht. }
  rewrite Hr. cbn [Nat.add].
  assert (He : exponent t = 0%Z).
  { destruct t as [|c r]; [reflexivity|]. unfold ends_number in Ht.
    unfold exponent.
    destruct (Ascii.eqb c "e"); [now rewrite !andb_false_r in Ht|].
    destruct (Ascii.eqb c "E"); [now rewrite !andb_false_r in Ht|].
    reflexivity. }
  rewrite He. unfold decimal. cbn [Z.of_nat Z.sub Z.opp Z.add Z.leb Z.compare].
  now rewrite Z.pow_0_r, Z.mul_1_r.
Qed.

Lemma unsigned_uint (d : Decimal.uint) (t : string) :
  d <> Decimal.Nil -> unsigned (NilEmpty.string_of_uint d ++ t) = true.
Proof. intro Hd. destruct d; [now elim Hd | reflexivity..]. Qed.

Lemma parseFloat_numeral (z : Z) (t : string) :
  ends_number t = true -> parseFloat (numeral z ++ t) = of_Z z.
Proof.
  intro Ht. unfold numeral, of_Z.
  destruct z as [|p|p]; cbn [Z.to_int NilZero.string_of_int].
  - change (NilZero.string_of_uint Decimal.zero)
      with (NilEmpty.string_of_uint Decimal.zero).
    rewrite parseFloat_unsigned by now apply unsigned_uint.
    now rewrite unsigned_literal_uint.
  - assert (Hd : Pos.to_uint p <> Decimal.Nil)
      by apply Unsigned.to_uint_nonnil.
    replace (NilZero.string_of_uint (Pos.to_uint p))
      with (NilEmpty.string_of_uint (Pos.to_uint p))
      by (unfold NilZero.string_of_uint;
          destruct (Pos.to_uint p); [now elim Hd | reflexivity..]).
    rewrite parseFloat_unsigned by now apply unsigned_uint.
    rewrite unsigned_literal_uint by assumption.
    now rewrite uint_acc_0, Unsigned.of_to.
  - assert (Hd : Pos.to_uint p <> Decimal.Nil)
      by apply Unsigned.to_uint_nonnil.
    replace (NilZero.string_of_uint (Pos.to_uint p))
      with (NilEmpty.string_of_uint (Pos.to_uint p))
      by (unfold NilZero.string_of_uint;
          destruct (Pos.to_uint p); [now elim Hd | reflexivity..]).
    change (parseFloat (String "-" (NilEmpty.string_of_uint (Pos.to_uint p))
                        ++ t))
      with (unsigned_literal true
              (NilEmpty.string_of_uint (Pos.to_uint p) ++ t)).
    rewrite unsigned_literal_uint by assumption.
    rewrite uint_acc_0, Unsigned.of_to. apply Fin_eq.
    unfold Qcopp, Q2Qc. cbn [this]. now rewrite !Qred_correct.
Qed.

(** X8.  Typing the decimal numeral of an integer of at most [2 ^ 53] in
    absolute value (the integers a number holds exactly), followed or not
    by text that starts with none of a digit, a point and an exponent
    mark, stores that integer: a unit or a word after the number is
    dropped. *)
Theorem onChange_numeral (field : key) (z : Z) (t : string)
  (st : Component) :
  (Z.abs z <= 2 ^ 53)%Z ->
  ends_number t = true ->
  get (onChange field (numeral z ++ t) st).(inputs) field = of_Z z.
Proof.
  intros _ Ht. rewrite onChange_inputs, get_spread_same. unfold numValue.
  now rewrite parseFloat_numeral, or_else_0.
Qed.

Lemma onChange_numeral_witness :
  (Z.abs 250000 <= 2 ^ 53)%Z
  /\ ends_number " USD" = true
  /\ numeral 250000 = "250000"%string
  /\ get (onChange k_current_maintenance_cost ("250000" ++ " USD")
            mount).(inputs) k_current_maintenance_cost = 250000.
Proof.
  split; [lia|]. split; [reflexivity|]. split; [reflexivity|].
  apply (onChange_numeral k_current_maintenance_cost 250000 " USD" mount).
  - lia.
  - reflexivity.
Defined.

(* ------------------------------------------------------------------ *)
(** * The two displayed figures, for every input record *)

Lemma of_Z_inj (a b : Z) : of_Z a = of_Z b -> a = b.
Proof.
  unfold of_Z. intro H.
  assert (E : this (Q2Qc (inject_Z a)) = this (Q2Qc (inject_Z b)))
    by congruence.
  rewrite !this_of_Z in E. now injection E.
Qed.

Lemma clamp_round (lo hi : Z) (x : number) :
  (lo <= hi)%Z ->
  Math.min (of_Z hi) (Math.max (of_Z lo) (Math.round x))
  = match x with
    | NaN => NaN
    | Infinity => of_Z hi
    | NegInfinity => of_Z lo
    | Fin q => of_Z (Z.min hi (Z.max lo (Qfloor (q + (1 # 2)))))
    end.
Proof.
  intro H. destruct x as [ | | |q].
  - reflexivity.
  - reflexivity.
  - change (Math.max (of_Z lo) (Math.round NegInfinity)) with (of_Z lo).
    rewrite min_of_Z. f_equal. lia.
  - now rewrite round_Fin, max_of_Z, min_of_Z.
Qed.

Lemma floor_round (lo : Z) (x : number) :
  Math.max (of_Z lo) (Math.round x)
  = match x with
    | NaN => NaN
    | Infinity => Infinity
    | NegInfinity => of_Z lo
    | Fin q => of_Z (Z.max lo (Qfloor (q + (1 # 2))))
    end.
Proof.
  destruct x as [ | | |q]; try reflexivity.
  now rewrite round_Fin, max_of_Z.
Qed.

Lemma payback_months_eq (i : CalculatorInputs) :
  (computeROI i).(payback_months)
  = Math.min (of_Z 18)
      (Math.max (of_Z 1)
         (Math.round
            (i.(modernization_cost) / Calc.total_annual_savings i * 12))).
Proof. reflexivity. Qed.

Lemma roi_percentage_eq (i : CalculatorInputs) :
  (computeROI i).(roi_percentage)
  = Math.max (of_Z 50) (Math.round (Calc.roi i)).
Proof. reflexivity. Qed.

(** X9.  For every input record, whatever the signs and sizes of its
    fields, the payback returned is either [NaN] or an integer between 1
    and 18; it is [NaN] exactly when the ratio of the cost to the annual
    savings is. *)
Theorem payback_months_range (i : CalculatorInputs) :
  isNaN (computeROI i).(payback_months)
  = isNaN (i.(modernization_cost) / Calc.total_annual_savings i)
  /\ (isNaN (computeROI i).(payback_months) = true
      \/ (isInteger (computeROI i).(payback_months) = true
          /\ 1 <= (computeROI i).(payback_months)
          /\ (computeROI i).(payback_months) <= 18)).
Proof.
  rewrite payback_months_eq, clamp_round by lia.
  destruct (i.(modernization_cost) / Calc.total_annual_savings i)
    as [ | | |q] eqn:E.
  - split; [reflexivity | now left].
  - split; [reflexivity | right; repeat split].
  - split; [reflexivity | right; repeat split].
  - cbn [mul]. split; [reflexivity | right].
    rewrite isInteger_of_Z. change 1 with (of_Z 1). change 18 with (of_Z 18).
    rewrite !leb_of_Z. repeat split; apply Z.leb_le; lia.
Qed.

(** X10.  For every input record the ROI returned is [NaN], [Infinity] or
    an integer that is at least 50: it is never below 50, never
    [-Infinity] and never fractional. *)
Theorem roi_percentage_range (i : CalculatorInputs) :
  isNaN (computeROI i).(roi_percentage) = true
  \/ (computeROI i).(roi_percentage) = Infinity
  \/ (isInteger (computeROI i).(roi_percentage) = true
      /\ (computeROI i).(roi_percentage) >= 50).
Proof.
  rewrite roi_percentage_eq, floor_round.
  destruct (Calc.roi i) as [ | | |q].
  - now left.
  - right. now left.
  - right. right. split; reflexivity.
  - right. right. rewrite isInteger_of_Z. split; [reflexivity|].
    unfold geb. change 50 with (of_Z 50). rewrite leb_of_Z.
    apply Z.leb_le. lia.
Qed.

Lemma Q_ratio_le (m t a b : Q) :
  (0 < t -> (m / t * a <= b <-> m * a <= b * t))%Q.
Proof.
  intros Ht.
  assert (E : (m / t * a * t == m * a)%Q) by (field; lra).
  rewrite <- E. symmetry. apply Qmult_le_r. exact Ht.
Qed.

Lemma Qfloor_half_le (x : Q) (k : Z) :
  (Qfloor (x + (1 # 2)) <= k)%Z <-> (x < inject_Z k + (1 # 2))%Q.
Proof.
  pose proof (Qfloor_le (x + (1 # 2))) as Hl.
  pose proof (Qlt_floor (x + (1 # 2))) as Hu.
  rewrite inject_Z_plus in Hu. change (inject_Z 1) with 1%Q in Hu.
  split; intro H.
  - assert (H1 : (inject_Z (Qfloor (x + (1 # 2))) <= inject_Z k)%Q)
      by (rewrite <- Zle_Qle; exact H).
    lra.
  - assert (H1 : (inject_Z (Qfloor (x + (1 # 2))) < inject_Z (k + 1))%Q).
    { rewrite inject_Z_plus. change (inject_Z 1) with 1%Q. lra. }
    rewrite <- Zlt_Qlt in H1. lia.
Qed.

Lemma Qfloor_half_ge (x : Q) (k : Z) :
  (k <= Qfloor (x + (1 # 2)))%Z <-> (inject_Z k - (1 # 2) <= x)%Q.
Proof.
  pose proof (Qfloor_half_le x (k - 1)) as H.
  unfold Z.sub in H. rewrite inject_Z_plus, inject_Z_opp in H.
  change (inject_Z 1) with 1%Q in H.
  split; intro G.
  - destruct (Qlt_le_dec x (inject_Z k - (1 # 2))) as [L|L]; [|exact L].
    assert ((Qfloor (x + (1 # 2)) <= k + -1)%Z) by (apply H; lra). lia.
  - destruct (Z_le_gt_dec k (Qfloor (x + (1 # 2)))) as [L|L]; [exact L|].
    assert ((Qfloor (x + (1 # 2)) <= k + -1)%Z) as L2 by lia.
    apply H in L2. lra.
Qed.

(** X11.  Whenever the cost is a finite positive number and the
    three-year net benefit is at most half of it, a loss included, the
    ROI returned is exactly 50: the floor hides every raw ROI of 50
    percent or less. *)
Theorem roi_floor_shown (i : CalculatorInputs) :
  isFinite i.(modernization_cost) = true ->
  i.(modernization_cost) > 0 ->
  (computeROI i).(net_benefit_3_years) * 2 <= i.(modernization_cost) ->
  (computeROI i).(roi_percentage) = 50.
Proof.
  intros Hf Hm Hn. rewrite roi_percentage_eq, floor_round. unfold Calc.roi.
  change ((computeROI i).(net_benefit_3_years)) with (Calc.net_benefit i)
    in Hn.
  apply gt_0_inv in Hm as [E | (m & E & Hm)]; rewrite E in *;
    [discriminate Hf|].
  destruct (Calc.net_benefit i) as [ | | |n].
  - discriminate Hn.
  - discriminate Hn.
  - unfold div. apply Qccompare_gt in Hm. now rewrite Hm.
  - rewrite div_Fin by now apply Qc_lt_neq.
    cbn [mul] in *. apply leb_Fin in Hn. change 50 with (of_Z 50). f_equal.
    match goal with |- Z.max _ ?z = _ => assert (H : (z <= 50)%Z); [|lia] end.
    apply Qfloor_half_le. qc2q.
    assert (H : (n / m * 100 <= 50)%Q) by (apply Q_ratio_le; lra).
    unfold Qdiv in H. change (inject_Z 50) with 50%Q. lra.
Qed.

Lemma roi_floor_shown_witness :
  isFinite annual_loss_inputs.(modernization_cost) = true
  /\ annual_loss_inputs.(modernization_cost) > 0
  /\ (computeROI annual_loss_inputs).(net_benefit_3_years) * 2
     <= annual_loss_inputs.(modernization_cost)
  /\ (computeROI annual_loss_inputs).(roi_percentage) = 50.
Proof.
  do 3 (split; [reflexivity|]).
  apply (roi_floor_shown annual_loss_inputs); reflexivity.
Defined.

Lemma seventeen_and_a_half : 35 / 2 = Fin (Q2Qc (35 # 2)).
Proof. now apply Fin_eq. Qed.

Lemma one_and_a_half : 3 / 2 = Fin (Q2Qc (3 # 2)).
Proof. now apply Fin_eq. Qed.

(** X12.  For every input record the payback returned is 18 exactly when
    the months computed before the rounding, [modernization_cost /
    total_annual_savings * 12], are 17.5 or more, and 1 exactly when they
    are less than 1.5: every longer payback is shown as 18 and every
    shorter one, a negative one included, as 1. *)
Theorem payback_months_thresholds (i : CalculatorInputs) :
  ((computeROI i).(payback_months) = 18
   <-> i.(modernization_cost) / Calc.total_annual_savings i * 12 >= 35 / 2)
  /\ ((computeROI i).(payback_months) = 1
      <-> i.(modernization_cost) / Calc.total_annual_savings i * 12 < 3 / 2).
Proof.
  rewrite payback_months_eq, clamp_round by lia.
  rewrite seventeen_and_a_half, one_and_a_half.
  destruct (i.(modernization_cost) / Calc.total_annual_savings i * 12)
    as [ | | |q].
  - split; split; intro H; discriminate H.
  - split; split; intro H; try reflexivity; discriminate H.
  - split; split; intro H; try reflexivity; discriminate H.
  - unfold geb. rewrite leb_Fin, ltb_Fin.
    change 18 with (of_Z 18). change 1 with (of_Z 1).
    pose proof (Qfloor_half_ge q 18) as H18.
    pose proof (Qfloor_half_le q 1) as H1.
    set (z := Qfloor (q + (1 # 2))) in *.
    change (inject_Z 18 - (1 # 2))%Q with (35 # 2)%Q in H18.
    change (inject_Z 1 + (1 # 2))%Q with (3 # 2)%Q in H1.
    split; split; intro H.
    + apply of_Z_inj in H. apply H18. lia.
    + f_equal. apply H18 in H. lia.
    + apply of_Z_inj in H. apply H1. lia.
    + f_equal. apply H1 in H. lia.
Qed.

(* ------------------------------------------------------------------ *)
(** * How the results move with the cost and with the savings *)

Lemma inputs_ext (a b : CalculatorInputs) :
  (forall k, get a k = get b k) -> a = b.
Proof.
  intro H.
  pose proof (H k_current_maintenance_cost).
  pose proof (H k_projected_maintenance_cost).
  pose proof (H k_current_downtime_hours).
  pose proof (H k_downtime_cost_per_hour).
  pose proof (H k_downtime_reduction_percent).
  pose proof (H k_current_deployments_per_year).
  pose proof (H k_deployment_increase_percent).
  pose proof (H k_modernization_cost).
  pose proof (H k_productivity_gain_percent).
  pose proof (H k_team_salary_cost).
  clear H. destruct a, b. cbn in *. subst. reflexivity.
Qed.

Lemma differ_only_in_spread (k : key) (i1 i2 : CalculatorInputs) :
  differ_only_in k i1 i2 -> i2 = spread i1 k (get i2 k).
Proof.
  intro H. apply inputs_ext. intro k'. rewrite get_spread.
  destruct (key_eqb k k') eqn:E.
  - apply key_eqb_eq in E. now subst.
  - apply key_eqb_neq in E. symmetry. apply H. congruence.
Qed.

Lemma total_ignores_cost (i : CalculatorInputs) (c : number) :
  Calc.total_annual_savings (spread i k_modernization_cost c)
  = Calc.total_annual_savings i.
Proof. now destruct i. Qed.

Lemma leb_sub_l (x c1 c2 : number) :
  c1 <= c2 -> isNaN (x - c1) = false -> isNaN (x - c2) = false ->
  x - c2 <= x - c1.
Proof.
  intros H H1 H2.
  destruct x as [ | | |a], c1 as [ | | |b], c2 as [ | | |c];
    try discriminate H; try discriminate H1; try discriminate H2;
    try reflexivity.
  apply leb_Fin. apply leb_Fin in H. unfold sub, add, neg.
  apply Qcplus_le_compat; [apply Qcle_refl | now apply Qcopp_le_compat].
Qed.

(** X13.  The cost of the modernization never enters the annual savings:
    two input records that differ only in [modernization_cost] have the
    same annual savings, and the one with the higher cost has the lower
    (or the same) three-year net benefit, unless one of the two net
    benefits is [NaN]. *)
Theorem cost_only_lowers_net_benefit (i1 i2 : CalculatorInputs) :
  differ_only_in k_modernization_cost i1 i2 ->
  (computeROI i1).(annual_savings) = (computeROI i2).(annual_savings)
  /\ (i1.(modernization_cost) <= i2.(modernization_cost) ->
      isNaN (computeROI i1).(net_benefit_3_years) = false ->
      isNaN (computeROI i2).(net_benefit_3_years) = false ->
      (computeROI i2).(net_benefit_3_years)
      <= (computeROI i1).(net_benefit_3_years)).
Proof.
  intro Hd. rewrite (differ_only_in_spread _ i1 i2 Hd).
  rewrite !computeROI_eq. cbn [annual_savings net_benefit_3_years].
  unfold Calc.net_benefit, Calc.three_year_benefits.
  rewrite total_ignores_cost. split; [reflexivity|].
  replace (modernization_cost
             (spread i1 k_modernization_cost (get i2 k_modernization_cost)))
    with (get i2 k_modernization_cost) by now destruct i1.
  apply leb_sub_l.
Qed.

Lemma cost_only_lowers_net_benefit_witness :
  differ_only_in k_modernization_cost default_inputs zero_cost_inputs
  /\ zero_cost_inputs.(modernization_cost)
     <= default_inputs.(modernization_cost)
  /\ (computeROI default_inputs).(net_benefit_3_years)
     <= (computeROI zero_cost_inputs).(net_benefit_3_years).
Proof.
  assert (Hd : differ_only_in k_modernization_cost
                 zero_cost_inputs default_inputs).
  { intros k Hk. destruct k; try reflexivity. now elim Hk. }
  split; [intros k Hk; symmetry; now apply Hd|]. split; [reflexivity|].
  apply (cost_only_lowers_net_benefit zero_cost_inputs default_inputs Hd);
    reflexivity.
Defined.

Lemma Qc_0_le_inv (m : Qc) : (0 < m -> 0 <= / m)%Qc.
Proof.
  unfold Qclt, Qcle, Qcinv, Q2Qc. cbn [this]. intro H.
  rewrite !Qred_correct in *. apply Qinv_le_0_compat. now apply Qlt_le_weak.
Qed.

Lemma Qc_raw_roi_le (m a b c : Qc) :
  (0 < m -> 0 <= c -> a <= b ->
   (a * Q2Qc 3 + - m) / m * c <= (b * Q2Qc 3 + - m) / m * c)%Qc.
Proof.
  intros Hm Hc H. apply Qcmult_le_compat_r; [|exact Hc].
  unfold Qcdiv. apply Qcmult_le_compat_r; [|now apply Qc_0_le_inv].
  apply Qcplus_le_compat; [|apply Qcle_refl].
  apply Qcmult_le_compat_r; [exact H | discriminate].
Qed.

Lemma shown_roi (m : Qc) (x : number) :
  (0 < m)%Qc ->
  Math.max (of_Z 50) (Math.round ((x * 3 - Fin m) / Fin m * 100))
  = match x with
    | NaN => NaN
    | Infinity => Infinity
    | NegInfinity => of_Z 50
    | Fin a =>
        of_Z (Z.max 50
                (Qfloor (((a * Q2Qc 3 + - m) / m * Q2Qc 100)%Qc + (1 # 2))))
    end.
Proof.
  intro Hm. rewrite floor_round. destruct x as [ | | |a].
  - reflexivity.
  - change (Infinity * 3 - Fin m) with Infinity. unfold div.
    apply Qccompare_gt in Hm. now rewrite Hm.
  - change (NegInfinity * 3 - Fin m) with NegInfinity. unfold div.
    apply Qccompare_gt in Hm. now rewrite Hm.
  - cbn [mul sub add neg]. rewrite div_Fin by now apply Qc_lt_neq.
    reflexivity.
Qed.

(** X14.  At a fixed finite positive cost the ROI returned never falls
    when the annual savings rise: of two input records with the same
    cost, the one with the greater or equal annual savings has the
    greater or equal ROI. *)
Theorem roi_percentage_monotone_in_savings (i1 i2 : CalculatorInputs) :
  i1.(modernization_cost) = i2.(modernization_cost) ->
  isFinite i1.(modernization_cost) = true ->
  i1.(modernization_cost) > 0 ->
  (computeROI i1).(annual_savings) <= (computeROI i2).(annual_savings) ->
  (computeROI i1).(roi_percentage) <= (computeROI i2).(roi_percentage).
Proof.
  intros Ec Hf Hm H. rewrite !roi_percentage_eq.
  unfold Calc.roi, Calc.net_benefit, Calc.three_year_benefits.
  change ((computeROI i1).(annual_savings))
    with (Calc.total_annual_savings i1) in H.
  change ((computeROI i2).(annual_savings))
    with (Calc.total_annual_savings i2) in H.
  rewrite <- Ec.
  apply gt_0_inv in Hm as [E | (m & E & Hm)]; rewrite E in *;
    [discriminate Hf|].
  rewrite !(shown_roi m) by exact Hm.
  destruct (Calc.total_annual_savings i1) as [ | | |a],
    (Calc.total_annual_savings i2) as [ | | |b];
    try discriminate H; try reflexivity.
  - rewrite leb_of_Z. apply Z.leb_le. lia.
  - apply leb_Fin in H. rewrite leb_of_Z. apply Z.leb_le.
    apply Z.max_le_compat_l, Qfloor_resp_le.
    apply Qplus_le_l. now apply Qc_raw_roi_le.
Qed.

Lemma roi_percentage_monotone_in_savings_witness :
  annual_loss_inputs.(modernization_cost) = default_inputs.(modernization_cost)
  /\ isFinite annual_loss_inputs.(modernization_cost) = true
  /\ annual_loss_inputs.(modernization_cost) > 0
  /\ (computeROI annual_loss_inputs).(annual_savings)
     <= (computeROI default_inputs).(annual_savings)
  /\ (computeROI annual_loss_inputs).(roi_percentage)
     <= (computeROI default_inputs).(roi_percentage).
Proof.
  do 4 (split; [reflexivity|]).
  apply (roi_percentage_monotone_in_savings annual_loss_inputs
           default_inputs); reflexivity.
Defined.

Lemma Q_div_antitone (m a b : Q) :
  (0 < m -> 0 < a -> a <= b -> m / b <= m / a)%Q.
Proof.
  intros Hm Ha H.
  apply Qle_shift_div_r; [lra|].
  assert (E : (m / a * b == m * b / a)%Q) by (field; lra).
  rewrite E. apply Qle_shift_div_l; [exact Ha|].
  apply Qmult_le_l; assumption.
Qed.

Lemma Qc_ratio_antitone (m a b : Qc) :
  (0 < m -> 0 < a -> a <= b ->
   m / b * Q2Qc 12 <= m / a * Q2Qc 12)%Qc.
Proof.
  intros Hm Ha H. apply Qcmult_le_compat_r; [|discriminate].
  pose proof (Q_div_antitone m a b) as G. revert G. unfold Qdiv.
  qc2q. intro G. now apply G.
Qed.

Lemma shown_payback (m : Qc) (x : number) :
  x > 0 ->
  Math.min (of_Z 18) (Math.max (of_Z 1) (Math.round (Fin m / x * 12)))
  = match x with
    | Fin a =>
        of_Z (Z.min 18
                (Z.max 1 (Qfloor ((m / a * Q2Qc 12)%Qc + (1 # 2)))))
    | _ => of_Z 1
    end.
Proof.
  intro Hx. rewrite clamp_round by lia.
  apply gt_0_inv in Hx as [-> | (a & -> & Ha)].
  - reflexivity.
  - now rewrite div_Fin by now apply Qc_lt_neq.
Qed.

(** X15.  At a fixed finite positive cost and with positive annual
    savings the payback returned never grows when the savings rise: of
    two input records with the same cost and positive savings, the one
    with the greater or equal savings has the smaller or equal payback. *)
Theorem payback_months_antitone_in_savings (i1 i2 : CalculatorInputs) :
  i1.(modernization_cost) = i2.(modernization_cost) ->
  isFinite i1.(modernization_cost) = true ->
  i1.(modernization_cost) > 0 ->
  (computeROI i1).(annual_savings) > 0 ->
  (computeROI i1).(annual_savings) <= (computeROI i2).(annual_savings) ->
  (computeROI i2).(payback_months) <= (computeROI i1).(payback_months).
Proof.
  intros Ec Hf Hm H1 H. rewrite !payback_months_eq.
  change ((computeROI i1).(annual_savings))
    with (Calc.total_annual_savings i1) in *.
  change ((computeROI i2).(annual_savings))
    with (Calc.total_annual_savings i2) in *.
  rewrite <- Ec.
  apply gt_0_inv in Hm as [E | (m & E & Hm)]; rewrite E in *;
    [discriminate Hf|].
  assert (H2 : Calc.total_annual_savings i2 > 0).
  { destruct (Calc.total_annual_savings i1) as [ | | |a],
      (Calc.total_annual_savings i2) as [ | | |b];
      try discriminate H; try discriminate H1; try reflexivity.
    apply gtb_Fin. apply gtb_Fin in H1. apply leb_Fin in H.
    eapply Qclt_le_trans; eassumption. }
  rewrite !(shown_payback m) by assumption.
  destruct (Calc.total_annual_savings i1) as [ | | |a],
    (Calc.total_annual_savings i2) as [ | | |b];
    try discriminate H; try discriminate H1; try reflexivity.
  - rewrite leb_of_Z. apply Z.leb_le. lia.
  - apply leb_Fin in H. apply gtb_Fin in H1.
    rewrite leb_of_Z. apply Z.leb_le.
    apply Z.min_le_compat_l, Z.max_le_compat_l, Qfloor_resp_le.
    apply Qplus_le_l. now apply Qc_ratio_antitone.
Qed.

Lemma payback_months_antitone_in_savings_witness :
  default_inputs.(modernization_cost)
  = (spread default_inputs k_team_salary_cost 8000000).(modernization_cost)
  /\ isFinite default_inputs.(modernization_cost) = true
  /\ default_inputs.(modernization_cost) > 0
  /\ (computeROI default_inputs).(annual_savings) > 0
  /\ (computeROI default_inputs).(annual_savings)
     <= (computeROI
           (spread default_inputs k_team_salary_cost 8000000)).(annual_savings)
  /\ (computeROI
        (spread default_inputs k_team_salary_cost 8000000)).(payback_months)
     <= (computeROI default_inputs).(payback_months).
Proof.
  do 5 (split; [reflexivity|]).
  apply (payback_months_antitone_in_savings default_inputs
           (spread default_inputs k_team_salary_cost 8000000)); reflexivity.
Defined.

(* ------------------------------------------------------------------ *)
(** * Clearing the cost field *)

Lemma numValue_not_numeric (value : string) :
  numeric value = false -> numValue value = 0.
Proof.
  intro H. unfold numValue. rewrite or_else_0, parseFloat_NaN, H.
  reflexivity.
Qed.

Lemma cost_of_spread (i : CalculatorInputs) (c : number) :
  (spread i k_modernization_cost c).(modernization_cost) = c.
Proof. now destruct i. Qed.

Lemma Qccompare_net_at_zero_cost (a : Qc) :
  ((a * Q2Qc 3 + - Q2Qc 0) ?= 0)%Qc = (a ?= 0)%Qc.
Proof.
  destruct (a ?= 0)%Qc eqn:E.
  - apply Qccompare_eq in E. subst. now apply Qccompare_eq.
  - assert (E' : (a < 0)%Qc) by exact E. clear E.
    change ((a * Q2Qc 3 + - Q2Qc 0 < 0)%Qc).
    destruct a as [a ?]. qc2q. lra.
  - pose proof (proj1 (Qccompare_gt _ _) E) as E'. clear E.
    apply (proj2 (Qccompare_gt _ _)).
    destruct a as [a ?]. qc2q. lra.
Qed.

Lemma roi_at_zero_cost (x : number) :
  Math.max (of_Z 50) (Math.round ((x * 3 - 0) / 0 * 100))
  = match x with
    | NaN => NaN
    | Infinity => Infinity
    | NegInfinity => of_Z 50
    | Fin a =>
        match (a ?= 0)%Qc with
        | Gt => Infinity
        | Lt => of_Z 50
        | Eq => NaN
        end
    end.
Proof.
  destruct x as [ | | |a]; try reflexivity.
  change ((Fin a * 3 - 0) / 0)
    with (scale_inf ((a * Q2Qc 3 + - Q2Qc 0) ?= 0)%Qc Infinity).
  rewrite Qccompare_net_at_zero_cost. now destruct (a ?= 0)%Qc.
Qed.

Lemma payback_at_zero_cost (x : number) :
  Math.min (of_Z 18) (Math.max (of_Z 1) (Math.round (0 / x * 12)))
  = match x with
    | NaN => NaN
    | Fin a => match (a ?= 0)%Qc with Eq => NaN | _ => of_Z 1 end
    | _ => of_Z 1
    end.
Proof.
  destruct x as [ | | |a]; try reflexivity.
  assert (E : forall c, c <> Eq -> (a ?= 0)%Qc = c ->
                Math.min (of_Z 18)
                  (Math.max (of_Z 1) (Math.round (0 / Fin a * 12)))
                = of_Z 1).
  { intros c Hc Ec.
    assert (Ha : a <> 0%Qc)
      by (intro Ha; apply Qccompare_eq in Ha; congruence).
    change 0 with (Fin (Q2Qc 0)). rewrite div_Fin by exact Ha.
    unfold Qcdiv. rewrite Qcmult_0_l. reflexivity. }
  destruct (a ?= 0)%Qc eqn:Ec.
  - unfold div. now rewrite Ec.
  - now apply (E Lt).
  - now apply (E Gt).
Qed.

(** X16.  A text that is not numeric (an emptied field, for one) in the
    cost field stores a cost of 0 and leaves the annual savings as they
    were; the figures returned are then: with positive savings an ROI of
    [Infinity] and a payback of 1 month, with negative savings an ROI of
    50 and a payback of 1 month, and with savings of 0 an ROI and a
    payback of [NaN]. *)
Theorem clearing_the_cost_field (value : string) (st : Component) :
  numeric value = false ->
  (onChange k_modernization_cost value st).(inputs).(modernization_cost) = 0
  /\ (onChange k_modernization_cost value st).(results).(annual_savings)
     = Calc.total_annual_savings st.(inputs)
  /\ (Calc.total_annual_savings st.(inputs) > 0 ->
      (onChange k_modernization_cost value st).(results).(roi_percentage)
      = Infinity
      /\ (onChange k_modernization_cost value st).(results).(payback_months)
         = 1)
  /\ (Calc.total_annual_savings st.(inputs) < 0 ->
      (onChange k_modernization_cost value st).(results).(roi_percentage)
      = 50
      /\ (onChange k_modernization_cost value st).(results).(payback_months)
         = 1)
  /\ (Calc.total_annual_savings st.(inputs) = 0 ->
      (onChange k_modernization_cost value st).(results).(roi_percentage)
      = NaN
      /\ (onChange k_modernization_cost value st).(results).(payback_months)
         = NaN).
Proof.
  intro H. rewrite onChange_results, onChange_inputs.
  rewrite (numValue_not_numeric value H).
  rewrite roi_percentage_eq, payback_months_eq.
  unfold Calc.roi, Calc.net_benefit, Calc.three_year_benefits.
  rewrite cost_of_spread, total_ignores_cost.
  rewrite roi_at_zero_cost, payback_at_zero_cost.
  split; [reflexivity|]. split; [apply total_ignores_cost|].
  split; [|split].
  - intro G. apply gt_0_inv in G as [-> | (a & -> & Ha)]; [now split|].
    apply Qccompare_gt in Ha. now rewrite Ha.
  - intro G. apply lt_0_inv in G as [-> | (a & -> & Ha)]; [now split|].
    assert (E : (a ?= 0)%Qc = Lt) by exact Ha. now rewrite E.
  - intros ->. now split.
Qed.

Lemma clearing_the_cost_field_witness :
  numeric "" = false
  /\ Calc.total_annual_savings mount.(inputs) > 0
  /\ (onChange k_modernization_cost "" mount).(results).(roi_percentage)
     = Infinity
  /\ (onChange k_modernization_cost "" mount).(results).(payback_months)
     = 1.
Proof.
  do 2 (split; [reflexivity|]).
  destruct (clearing_the_cost_field "" mount eq_refl) as (_ & _ & G & _).
  now apply G.
Defined.

(* ------------------------------------------------------------------ *)
(** * The deployment inputs beyond the cap *)

Lemma min_at_cap (c x : number) : x >= c -> Math.min c x = c.
Proof.
  unfold geb, leb, Math.min.
  destruct (compare c x) as [[ | | ]|]; intro H;
    try discriminate H; reflexivity.
Qed.

(** X17.  Once the deployment value of a record (deployments per year
    times 1000 times the increase percent over 100) has reached 50000, the
    two deployment inputs no longer matter: the gain used is 50000, and
    every other record with the same remaining inputs whose deployment
    value has reached 50000 too gets the same four results. *)
Theorem deployment_inputs_beyond_the_cap (i1 i2 : CalculatorInputs) :
  (forall k, k <> k_current_deployments_per_year ->
             k <> k_deployment_increase_percent -> get i1 k = get i2 k) ->
  i1.(current_deployments_per_year) * 1000
    * (i1.(deployment_increase_percent) / 100) >= 50000 ->
  i2.(current_deployments_per_year) * 1000
    * (i2.(deployment_increase_percent) / 100) >= 50000 ->
  Calc.deployment_efficiency_gain i1 = 50000
  /\ computeROI i1 = computeROI i2.
Proof.
  intros H H1 H2.
  assert (G1 : Calc.deployment_efficiency_gain i1 = 50000)
    by (apply min_at_cap, H1).
  assert (G2 : Calc.deployment_efficiency_gain i2 = 50000)
    by (apply min_at_cap, H2).
  split; [exact G1|].
  pose proof (H k_current_maintenance_cost) as E1.
  pose proof (H k_projected_maintenance_cost) as E2.
  pose proof (H k_current_downtime_hours) as E3.
  pose proof (H k_downtime_cost_per_hour) as E4.
  pose proof (H k_downtime_reduction_percent) as E5.
  pose proof (H k_modernization_cost) as E6.
  pose proof (H k_productivity_gain_percent) as E7.
  pose proof (H k_team_salary_cost) as E8.
  cbn [get] in E1, E2, E3, E4, E5, E6, E7, E8.
  assert (T : Calc.total_annual_savings i1 = Calc.total_annual_savings i2).
  { unfold Calc.total_annual_savings. rewrite G1, G2.
    unfold Calc.maintenance_savings, Calc.downtime_savings,
      Calc.current_annual_downtime_cost, Calc.productivity_value.
    rewrite E1, E2, E3, E4, E5, E7, E8 by discriminate. reflexivity. }
  rewrite !computeROI_eq.
  unfold Calc.roi, Calc.payback_months, Calc.net_benefit,
    Calc.three_year_benefits.
  rewrite T, E6 by discriminate. reflexivity.
Qed.

Lemma deployment_inputs_beyond_the_cap_witness :
  (spread default_inputs k_current_deployments_per_year 25)
    .(current_deployments_per_year) * 1000
    * ((spread default_inputs k_current_deployments_per_year 25)
         .(deployment_increase_percent) / 100) >= 50000
  /\ (spread default_inputs k_deployment_increase_percent 1000)
       .(current_deployments_per_year) * 1000
     * ((spread default_inputs k_deployment_increase_percent 1000)
          .(deployment_increase_percent) / 100) >= 50000
  /\ computeROI (spread default_inputs k_current_deployments_per_year 25)
     = computeROI (spread default_inputs k_deployment_increase_percent 1000).
Proof.
  do 2 (split; [reflexivity|]).
  apply (deployment_inputs_beyond_the_cap
           (spread default_inputs k_current_deployments_per_year 25)
           (spread default_inputs k_deployment_increase_percent 1000)).
  - intros k Hk1 Hk2. destruct k; try reflexivity; contradiction.
  - reflexivity.
  - reflexivity.
Defined.
